(** * UGRID convention reader of uxarray ([uxarray/io/_ugrid.py])

    A shallow embedding of the five functions of the module
    ([_read_ugrid], [_encode_ugrid], [_standardize_fill_values],
    [_is_ugrid], [_validate_minimum_ugrid]) over a model of the
    xarray container they are written against.

    Layout:
    - [Py]        the Python side: exceptions, attribute values, [str.split],
                  list indexing;
    - [Np]        numpy arrays as far as the module looks at them
                  (dtype, shape, NaN test);
    - [Xr]        the part of [xarray.Dataset] the module calls;
    - [Ugrid]     the module itself, function by function, over the
                  constants and the helper it imports;
    - [Defaults]  one choice of those constants and of the helper;
    - [Samples]   the datasets the statements are tried on;
    - facts about the container, then the properties of the module. *)

From Stdlib Require Import QArith Ascii.
From stdpp Require Import base option list strings gmap.

Local Open Scope string_scope.

(** ** Python values and exceptions *)

Module Py.

(** The exception classes that the code or the container can raise,
    together with the two error conditions that the design document
    names ([TopologyNotFound], [MalformedCoordinateReference]). *)
Inductive exn : Set :=
| IndexError
| KeyError
| ValueError
| AttributeError
| TopologyNotFound
| MalformedCoordinateReference.

(** A computation that returns or raises. *)
Inductive result (A : Type) : Type :=
| Ok (a : A)
| Raise (e : exn).
Arguments Ok {A} a.
Arguments Raise {A} e.

#[global] Instance result_ret : MRet result := λ A a, Ok a.
#[global] Instance result_bind : MBind result := λ A B f m,
  match m with
  | Ok a => f a
  | Raise e => Raise e
  end.

(** numpy/Python floating point numbers, as far as comparisons see
    them: a finite value, an infinity, or NaN. *)
Inductive float : Set :=
| FNum (q : Q)
| FInf (negative : bool)
| FNaN.

(** Values an attribute can hold.  A missing attribute is what
    [attrs.get] answers with [None]; it is [None : option pyval] here. *)
Inductive pyval : Set :=
| PStr (s : string)
| PInt (z : Z)
| PFloat (f : float).

Definition nan : pyval := PFloat FNaN.

(** [a == b] on attribute values: strings by content, numbers by value
    across int and float, NaN equal to nothing. *)
Definition py_eq (a b : pyval) : bool :=
  match a, b with
  | PStr s, PStr t => String.eqb s t
  | PInt x, PInt y => Z.eqb x y
  | PInt x, PFloat (FNum q) => Qeq_bool (inject_Z x) q
  | PFloat (FNum q), PInt y => Qeq_bool q (inject_Z y)
  | PFloat (FNum p), PFloat (FNum q) => Qeq_bool p q
  | PFloat (FInf s), PFloat (FInf t) => Bool.eqb s t
  | _, _ => false
  end.

(** [a == b] where [a] may be [None] and [b] is not. *)
Definition py_eq_opt (a : option pyval) (b : pyval) : bool :=
  match a with
  | Some x => py_eq x b
  | None => false
  end.

(** [a != b]. *)
Definition py_ne_opt (a : option pyval) (b : pyval) : bool :=
  negb (py_eq_opt a b).

(** [l[i]] on a list or tuple. *)
Definition list_getitem {A} (l : list A) (i : nat) : result A :=
  match l !! i with
  | Some x => Ok x
  | None => Raise IndexError
  end.

(** The characters [str.split()] treats as separators (ASCII range). *)
Definition isspace (c : ascii) : bool :=
  let n := nat_of_ascii c in
  ((9 <=? n)%nat && (n <=? 13)%nat) || ((28 <=? n)%nat && (n <=? 32)%nat).

(** [s.split()]: maximal runs of non-space characters, in order.
    [cur] holds the characters of the word being read. *)
Definition flush_word (cur : string) : list string :=
  match cur with
  | EmptyString => []
  | _ => [cur]
  end.

Fixpoint split_go (s : string) (cur : string) : list string :=
  match s with
  | EmptyString => flush_word cur
  | String c s' =>
      if isspace c then flush_word cur ++ split_go s' EmptyString
      else split_go s' (String.append cur (String c EmptyString))
  end.

Definition split (s : string) : list string := split_go s EmptyString.

(** [v.split()] on an attribute value: only [str] has the method. *)
Definition pyval_split (v : pyval) : result (list string) :=
  match v with
  | PStr s => Ok (split s)
  | _ => Raise AttributeError
  end.

End Py.
Import Py.

(** ** numpy arrays *)

Module Np.

Inductive dtype : Set :=
| DInt (bits : N)
| DFloat (bits : N).

#[global] Instance dtype_eq_dec : EqDecision dtype.
Proof. solve_decision. Defined.

(** An array is typed: an integer array cannot hold NaN. *)
Inductive ndarray : Type :=
| IntArray (bits : N) (shape : list N) (elems : list Z)
| FloatArray (bits : N) (shape : list N) (elems : list float).

Definition dtype_of (a : ndarray) : dtype :=
  match a with
  | IntArray b _ _ => DInt b
  | FloatArray b _ _ => DFloat b
  end.

Definition shape (a : ndarray) : list N :=
  match a with
  | IntArray _ s _ | FloatArray _ s _ => s
  end.

Definition float_isnan (f : float) : bool :=
  match f with FNaN => true | _ => false end.

(** [np.isnan(a).any()] *)
Definition isnan_any (a : ndarray) : bool :=
  match a with
  | IntArray _ _ _ => false
  | FloatArray _ _ l => existsb float_isnan l
  end.

Definition is_floating (d : dtype) : bool :=
  match d with DFloat _ => true | DInt _ => false end.

(** The array holds a NaN somewhere. *)
Definition contains_nan (a : ndarray) : Prop :=
  match a with
  | IntArray _ _ _ => False
  | FloatArray _ _ l => FNaN ∈ l
  end.

End Np.
Import Np.

(** ** The xarray container

    A [Dataset] is an ordered dictionary of named variables together with
    the set of names that are coordinates; the other variables are its
    data variables.  Dimensions are the dimension names its variables use.

    What the model leaves out of xarray: indexes and dimension sizes,
    keys with a dot (the [time.year] accessors), the difference between a
    dimension coordinate and any other variable, and the coordinates a
    [DataArray] carries (attribute access on a [DataArray] is a lookup in
    its [attrs]). *)

Module Xr.

Record Var : Type := mkVar {
  dims : list string;
  attrs : gmap string pyval;
  data : ndarray
}.

Record Dataset : Type := mkDataset {
  variables : list (string * Var);
  coord_names : gset string
}.

(** [ds[name]] is a view on one variable, which knows its name. *)
Record DataArray : Type := mkDataArray {
  name : string;
  variable : Var
}.

Definition values (da : DataArray) : ndarray := data (variable da).

Fixpoint lookup_var (k : string) (vs : list (string * Var)) : option Var :=
  match vs with
  | [] => None
  | (k', v) :: vs' => if String.eqb k k' then Some v else lookup_var k vs'
  end.

(** [k in ds]: membership in the variables, coordinates included. *)
Definition contains (ds : Dataset) (k : string) : bool :=
  bool_decide (is_Some (lookup_var k (variables ds))).

(** [ds.dims]: every dimension name used by some variable. *)
Definition ds_dims (ds : Dataset) : list string :=
  concat (map (λ kv, dims kv.2) (variables ds)).

Definition is_dim (ds : Dataset) (k : string) : bool :=
  bool_decide (k ∈ ds_dims ds).

Definition is_coord (ds : Dataset) (k : string) : bool :=
  bool_decide (k ∈ coord_names ds).

(** [ds.data_vars]: the variables that are not coordinates, in order. *)
Definition data_vars (ds : Dataset) : list (string * Var) :=
  filter (λ kv, is_coord ds kv.1 = false) (variables ds).

(** [ds.keys()] and [len(ds)] range over the data variables only. *)
Definition keys (ds : Dataset) : list string := (data_vars ds).*1.
Definition len (ds : Dataset) : nat := length (data_vars ds).

(** The variable xarray makes up for a dimension that has no
    coordinate variable: a one-dimensional integer index without
    attributes (its entries are left out, as sizes are). *)
Definition virtual_index (k : string) : Var :=
  {| dims := [k]; attrs := ∅; data := IntArray 64 [] [] |}.

(** [ds[k]] for a name [k]. *)
Definition getitem (ds : Dataset) (k : string) : result DataArray :=
  match lookup_var k (variables ds) with
  | Some v => Ok (mkDataArray k v)
  | None =>
      if is_dim ds k then Ok (mkDataArray k (virtual_index k))
      else Raise KeyError
  end.

(** [da.k] for an attribute name [k]. *)
Definition da_getattr (da : DataArray) (k : string) : result pyval :=
  match attrs (variable da) !! k with
  | Some v => Ok v
  | None => Raise AttributeError
  end.

(** [k in da.attrs] *)
Definition attrs_contains (da : DataArray) (k : string) : bool :=
  bool_decide (is_Some (attrs (variable da) !! k)).

(** *** rename *)

Definition rename_name (d : gmap string string) (k : string) : string :=
  default k (d !! k).

Definition rename_var (d : gmap string string) (v : Var) : Var :=
  {| dims := map (rename_name d) (dims v); attrs := attrs v; data := data v |}.

(** The loop of [_rename_vars]: a new name that is already taken is a
    [ValueError]. *)
Fixpoint rename_vars (d : gmap string string) (vs acc : list (string * Var))
  : result (list (string * Var)) :=
  match vs with
  | [] => Ok acc
  | (k, v) :: vs' =>
      let k' := rename_name d k in
      match lookup_var k' acc with
      | Some _ => Raise ValueError
      | None => rename_vars d vs' (acc ++ [(k', rename_var d v)])
      end
  end.

(** [ds.rename(d)]: [d] renames variables and dimensions at once; each
    of its keys has to be a variable or a dimension of [ds]. *)
Definition rename (d : gmap string string) (ds : Dataset) : result Dataset :=
  if forallb (λ k, contains ds k || is_dim ds k) (map_to_list d).*1 then
    vs ← rename_vars d (variables ds) [];
    Ok {| variables := vs;
          coord_names :=
            list_to_set
              (map (rename_name d)
                 (filter (λ k, is_coord ds k = true) (variables ds).*1)) |}
  else Raise ValueError.

(** *** set_coords *)

(** [ds.set_coords(names)]: every name has to be a variable. *)
Definition set_coords (names : list string) (ds : Dataset) : result Dataset :=
  if forallb (contains ds) names then
    Ok {| variables := variables ds;
          coord_names := list_to_set names ∪ coord_names ds |}
  else Raise ValueError.

(** *** filter_by_attrs *)

(** A keyword of [filter_by_attrs] is a value to compare with or a
    callable applied to [attrs.get(key)]. *)
Inductive pattern : Type :=
| Literal (v : pyval)
| Callable (f : option pyval → bool).

Definition pattern_matches (p : pattern) (a : option pyval) : bool :=
  match p with
  | Callable f => f a
  | Literal v => py_eq_opt a v
  end.

(** The inner loop of [filter_by_attrs]: every keyword matches, and
    there is at least one keyword. *)
Definition var_matches (kwargs : list (string * pattern)) (v : Var) : bool :=
  match kwargs with
  | [] => false
  | _ => forallb (λ kp, pattern_matches kp.2 (attrs v !! kp.1)) kwargs
  end.

Definition subset_of (l needed : list string) : bool :=
  forallb (λ d, bool_decide (d ∈ needed)) l.

(** [ds[names]] for a list of names of variables of [ds]: those variables,
    then the coordinates that live on their dimensions. *)
Definition _copy_listed (ds : Dataset) (names : list string) : Dataset :=
  let picked :=
    omap (λ k, (λ v, (k, v)) <$> lookup_var k (variables ds)) names in
  let needed_dims := concat (map (λ kv, dims kv.2) picked) in
  let coords :=
    filter (λ kv, is_coord ds kv.1 = true ∧ subset_of (dims kv.2) needed_dims = true)
      (variables ds) in
  {| variables :=
       picked ++ filter (λ kv, lookup_var kv.1 picked = None) coords;
     coord_names := list_to_set coords.*1 |}.

Definition filter_by_attrs (kwargs : list (string * pattern)) (ds : Dataset)
  : Dataset :=
  let selection :=
    (filter (λ kv, var_matches kwargs kv.2 = true) (variables ds)).*1 in
  _copy_listed ds selection.

(** *** assignment through [ds[k]] *)

Fixpoint update_var (k : string) (f : Var → Var) (vs : list (string * Var))
  : list (string * Var) :=
  match vs with
  | [] => []
  | (k', v) :: vs' =>
      if String.eqb k k' then (k', f v) :: vs'
      else (k', v) :: update_var k f vs'
  end.

(** [ds[k].data = a]: the view shares the variable with [ds], so the
    dataset sees the new data.  The new array has to have the shape of the
    old one, and the made-up index of a bare dimension is read-only. *)
Definition set_data (ds : Dataset) (k : string) (a : ndarray) : result Dataset :=
  match lookup_var k (variables ds) with
  | Some v =>
      if bool_decide (shape a = shape (data v)) then
        Ok {| variables :=
                update_var k (λ v, {| dims := dims v; attrs := attrs v; data := a |})
                  (variables ds);
              coord_names := coord_names ds |}
      else Raise ValueError
  | None => if is_dim ds k then Raise ValueError else Raise KeyError
  end.

(** [ds[k].attrs[key] = x] *)
Definition set_attr (ds : Dataset) (k key : string) (x : pyval) : result Dataset :=
  match lookup_var k (variables ds) with
  | Some v =>
      Ok {| variables :=
              update_var k
                (λ v, {| dims := dims v; attrs := <[key := x]> (attrs v); data := data v |})
                (variables ds);
            coord_names := coord_names ds |}
  | None => if is_dim ds k then Ok ds else Raise KeyError
  end.

End Xr.
Import Xr.

(** ** The module [uxarray/io/_ugrid.py] *)

Module Ugrid.

Section WithConstants.

(** [uxarray.constants] and [uxarray.grid.connectivity] are imported by
    the module; their contents are taken as given:
    the canonical index dtype, the canonical fill value, and the remap
    [_replace_fill_values(grid_var, original_fill, new_fill, new_dtype)],
    which returns an array or raises. *)
Variable INT_DTYPE : dtype.
Variable INT_FILL_VALUE : Z.
Variable _replace_fill_values :
  ndarray → option pyval → Z → dtype → result ndarray.

(** Lines 89-95: the fill value the connectivity comes with. *)
Definition original_fv (ds : Dataset) : result (option pyval) :=
  fnc ← getitem ds "face_node_connectivity";
  if attrs_contains fnc "_FillValue" then
    fnc ← getitem ds "face_node_connectivity";
    fv ← da_getattr fnc "_FillValue";
    Ok (Some fv)
  else
    fnc ← getitem ds "face_node_connectivity";
    if isnan_any (values fnc) then Ok (Some nan)
    else Ok None.

Definition _standardize_fill_values (ds : Dataset) : result Dataset :=
  fnc ← getitem ds "face_node_connectivity";
  let face_nodes := values fnc in
  original_fv ← original_fv ds;
  if bool_decide (dtype_of face_nodes ≠ INT_DTYPE)
     || py_ne_opt original_fv (PInt INT_FILL_VALUE)
  then
    new_face_nodes ←
      _replace_fill_values face_nodes original_fv INT_FILL_VALUE INT_DTYPE;
    ds ← set_data ds "face_node_connectivity" new_face_nodes;
    ds ← set_attr ds "face_node_connectivity" "_FillValue" (PInt INT_FILL_VALUE);
    Ok ds
  else Ok ds.

(** Lines 25-29: the renaming of the coordinate variables. *)
Definition rename_coords (coord_names : list string) (xr_ds : Dataset)
  : result Dataset :=
  if (length coord_names =? 1)%nat then
    c0 ← list_getitem coord_names 0;
    rename {[ c0 := "node_lon" ]} xr_ds
  else if (length coord_names =? 2)%nat then
    c0 ← list_getitem coord_names 0;
    c1 ← list_getitem coord_names 1;
    rename (<[ c1 := "node_lat" ]> {[ c0 := "node_lon" ]}) xr_ds
  else Ok xr_ds.

Definition _read_ugrid (xr_ds : Dataset)
  : result (Dataset * gmap string string) :=
  let source_dims_dict : gmap string string := ∅ in
  base_xarray_var ←
    list_getitem
      (keys (filter_by_attrs [("cf_role", Literal (PStr "mesh_topology"))] xr_ds)) 0;
  xr_ds ← rename {[ base_xarray_var := "Mesh2" ]} xr_ds;
  mesh2 ← getitem xr_ds "Mesh2";
  node_coordinates ← da_getattr mesh2 "node_coordinates";
  coord_names ← pyval_split node_coordinates;
  xr_ds ← rename_coords coord_names xr_ds;
  node_lon ← getitem xr_ds "node_lon";
  let coord_dim_name := dims (variable node_lon) in
  d ← list_getitem coord_dim_name 0;
  xr_ds ← rename {[ d := "n_node" ]} xr_ds;
  mesh2 ← getitem xr_ds "Mesh2";
  face_node_connectivity ← da_getattr mesh2 "face_node_connectivity";
  face_node_names ← pyval_split face_node_connectivity;
  face_node_name ← list_getitem face_node_names 0;
  fnc ← getitem xr_ds face_node_name;
  xr_ds ← rename {[ name fnc := "face_node_connectivity" ]} xr_ds;
  fnc ← getitem xr_ds "face_node_connectivity";
  d0 ← list_getitem (dims (variable fnc)) 0;
  fnc ← getitem xr_ds "face_node_connectivity";
  d1 ← list_getitem (dims (variable fnc)) 1;
  xr_ds ← rename (<[ d1 := "n_max_face_nodes" ]> {[ d0 := "n_face" ]}) xr_ds;
  xr_ds ← set_coords ["node_lon"; "node_lat"] xr_ds;
  xr_ds ← _standardize_fill_values xr_ds;
  d ← list_getitem coord_dim_name 0;
  let source_dims_dict := <[ d := "n_node" ]> source_dims_dict in
  fnc ← getitem xr_ds "face_node_connectivity";
  d0 ← list_getitem (dims (variable fnc)) 0;
  let source_dims_dict := <[ d0 := "n_face" ]> source_dims_dict in
  fnc ← getitem xr_ds "face_node_connectivity";
  d1 ← list_getitem (dims (variable fnc)) 1;
  let source_dims_dict := <[ d1 := "n_max_face_nodes" ]> source_dims_dict in
  Ok (xr_ds, source_dims_dict).

End WithConstants.

Definition _encode_ugrid (ds : Dataset) : Dataset := ds.

(** [lambda v: v is not None] *)
Definition is_not_None (v : option pyval) : bool :=
  match v with
  | Some _ => true
  | None => false
  end.

Definition _is_ugrid (ds : Dataset) : bool :=
  let node_coords_dv := filter_by_attrs [("node_coordinates", Callable is_not_None)] ds in
  let face_conn_dv := filter_by_attrs [("face_node_connectivity", Callable is_not_None)] ds in
  let topo_dim_dv := filter_by_attrs [("topology_dimension", Callable is_not_None)] ds in
  let mesh_topo_dv := filter_by_attrs [("cf_role", Literal (PStr "mesh_topology"))] ds in
  if negb (len mesh_topo_dv =? 0)%nat
     && negb (len topo_dim_dv =? 0)%nat
     && negb (len face_conn_dv =? 0)%nat
     && negb (len node_coords_dv =? 0)%nat
  then true
  else false.

(** Python reads [a and b or c and d and e and f] as
    [(a and b) or (c and d and e and f)]. *)
Definition _validate_minimum_ugrid (grid_ds : Dataset) : bool :=
  (contains grid_ds "node_lon" && contains grid_ds "node_lat")
  || (contains grid_ds "node_x" && contains grid_ds "node_y"
      && contains grid_ds "node_z"
      && contains grid_ds "face_node_connectivity").

End Ugrid.
Import Ugrid.

(** ** The imported constants and helper *)

Module Defaults.

(** Modelled from the spec: [uxarray.constants.INT_DTYPE] is not among the
    sources.  The spec asks for "a fixed-width signed integer type used
    consistently across the library"; the 64-bit integer stands for it. *)
Definition INT_DTYPE : dtype := DInt 64.

(** Modelled from the spec: [uxarray.constants.INT_FILL_VALUE] is not among
    the sources.  The spec asks for one canonical sentinel value of the
    canonical dtype; its least value stands for it. *)
Definition INT_FILL_VALUE : Z := - 2 ^ 63.

(** [e == original_fill] for an element of an integer array. *)
Definition int_is_fill (original_fill : option pyval) (z : Z) : bool :=
  match original_fill with
  | Some x => py_eq (PInt z) x
  | None => false
  end.

(** The same for an element of a floating-point array; a NaN sentinel
    is matched by the NaN test, not by equality. *)
Definition float_is_fill (original_fill : option pyval) (f : float) : bool :=
  match original_fill with
  | Some (PFloat FNaN) => float_isnan f
  | Some x => py_eq (PFloat f) x
  | None => false
  end.

(** An exact cast of a float to an integer; a fractional or infinite
    value is a fault. *)
Definition cast_exact (f : float) : result Z :=
  match f with
  | FNum q =>
      let r := Qred q in
      if (Qden r =? 1)%positive then Ok (Qnum r) else Raise ValueError
  | _ => Raise ValueError
  end.

Fixpoint remap_floats (original_fill : option pyval) (new_fill : Z)
    (l : list float) : result (list Z) :=
  match l with
  | [] => Ok []
  | f :: l' =>
      z ← (if float_is_fill original_fill f then Ok new_fill else cast_exact f);
      zs ← remap_floats original_fill new_fill l';
      Ok (z :: zs)
  end.

(** Modelled from the spec: [uxarray.grid.connectivity._replace_fill_values]
    is not among the sources.  "Every element equal to the detected
    sentinel (NaN compared by sameness-of-NaN, not equality) becomes the
    canonical sentinel value; all other elements are cast to the canonical
    integer dtype; the array's dtype becomes the canonical integer dtype";
    the cast of a float has to be exact. *)
Definition _replace_fill_values (grid_var : ndarray)
    (original_fill : option pyval) (new_fill : Z) (new_dtype : dtype)
  : result ndarray :=
  match new_dtype with
  | DInt bits =>
      match grid_var with
      | IntArray _ sh l =>
          Ok (IntArray bits sh
                (map (λ z, if int_is_fill original_fill z then new_fill else z) l))
      | FloatArray _ sh l =>
          zs ← remap_floats original_fill new_fill l;
          Ok (IntArray bits sh zs)
      end
  | DFloat _ => Raise ValueError
  end.

End Defaults.

(** ** Sample datasets *)

Module Samples.

Definition var (d : list string) (a : list (string * pyval)) (x : ndarray) : Var :=
  {| dims := d; attrs := list_to_map a; data := x |}.

Definition lon : ndarray := FloatArray 64 [4%N] [FNum 0; FNum 1; FNum 1; FNum 0].
Definition lat : ndarray := FloatArray 64 [4%N] [FNum 0; FNum 0; FNum 1; FNum 1].
Definition triangles : ndarray :=
  IntArray 32 [3%N; 4%N] [0; 1; 2; -1; 0; 2; 3; -1; 0; 1; 3; -1]%Z.

Definition topology (node_coordinates : string) : Var :=
  var [] [("cf_role", PStr "mesh_topology");
          ("topology_dimension", PInt 2);
          ("node_coordinates", PStr node_coordinates);
          ("face_node_connectivity", PStr "fnc")]
    (IntArray 32 [] [0%Z]).

Definition fnc : Var :=
  var ["nFaces"; "nMaxNodes"] [("_FillValue", PInt (-1))] triangles.

(** The scenario of the design document: topology variable [Mesh2d],
    coordinates [x] and [y] over [nNodes], connectivity [fnc] of shape
    ([nFaces] = 3, [nMaxNodes] = 4), 4-byte integers, fill value -1. *)
Definition scenario : Dataset :=
  {| variables := [("Mesh2d", topology "x y");
                   ("x", var ["nNodes"] [] lon);
                   ("y", var ["nNodes"] [] lat);
                   ("fnc", fnc)];
     coord_names := ∅ |}.

(** The same mesh without a topology variable. *)
Definition untagged : Dataset :=
  {| variables := [("x", var ["nNodes"] [] lon);
                   ("y", var ["nNodes"] [] lat);
                   ("fnc", fnc)];
     coord_names := ∅ |}.

(** The same mesh with three coordinate names. *)
Definition three_coordinates : Dataset :=
  {| variables := [("Mesh2d", topology "x y z");
                   ("x", var ["nNodes"] [] lon);
                   ("y", var ["nNodes"] [] lat);
                   ("z", var ["nNodes"] [] lat);
                   ("fnc", fnc)];
     coord_names := ∅ |}.

(** [three_coordinates] after its topology variable has been renamed. *)
Definition three_coordinates_renamed : Dataset :=
  {| variables := [("Mesh2", topology "x y z");
                   ("x", var ["nNodes"] [] lon);
                   ("y", var ["nNodes"] [] lat);
                   ("z", var ["nNodes"] [] lat);
                   ("fnc", fnc)];
     coord_names := ∅ |}.

(** The same mesh with one coordinate name. *)
Definition one_coordinate : Dataset :=
  {| variables := [("Mesh2d", topology "x");
                   ("x", var ["nNodes"] [] lon);
                   ("fnc", fnc)];
     coord_names := ∅ |}.

(** A mesh that already has the canonical coordinate names, and names
    three of them. *)
Definition three_canonical_names : Dataset :=
  {| variables := [("Mesh2d", topology "node_lon node_lat node_z");
                   ("node_lon", var ["nNodes"] [] lon);
                   ("node_lat", var ["nNodes"] [] lat);
                   ("node_z", var ["nNodes"] [] lat);
                   ("fnc", fnc)];
     coord_names := ∅ |}.

(** The four markers of a UGRID dataset, each on a variable of its
    own. *)
Definition split_markers : Dataset :=
  {| variables :=
       [("a", var [] [("cf_role", PStr "mesh_topology")] (IntArray 32 [] [0%Z]));
        ("b", var [] [("topology_dimension", PInt 2)] (IntArray 32 [] [0%Z]));
        ("c", var [] [("face_node_connectivity", PStr "fnc")] (IntArray 32 [] [0%Z]));
        ("d", var [] [("node_coordinates", PStr "x y")] (IntArray 32 [] [0%Z]))];
     coord_names := ∅ |}.

(** Longitude and latitude, and nothing else. *)
Definition lonlat_only : Dataset :=
  {| variables := [("node_lon", var ["n_node"] [] lon);
                   ("node_lat", var ["n_node"] [] lat)];
     coord_names := {[ "node_lon"; "node_lat" ]} |}.

(** A connectivity that is already in the canonical form of
    [Defaults]. *)
Definition canonical : Dataset :=
  {| variables :=
       [("face_node_connectivity",
          var ["n_face"; "n_max_face_nodes"]
            [("_FillValue", PInt Defaults.INT_FILL_VALUE)]
            (IntArray 64 [1%N; 4%N] [0; 1; 2; Defaults.INT_FILL_VALUE]%Z))];
     coord_names := ∅ |}.

(** A connectivity of floats padded with NaN, without [_FillValue]. *)
Definition nan_padded : Dataset :=
  {| variables :=
       [("face_node_connectivity",
          var ["n_face"; "n_max_face_nodes"] []
            (FloatArray 64 [1%N; 4%N] [FNum 0; FNum 1; FNum 2; FNaN]))];
     coord_names := ∅ |}.

(** [nan_padded] after standardization with the constants of
    [Defaults]. *)
Definition nan_padded_standardized : Dataset :=
  {| variables :=
       [("face_node_connectivity",
          var ["n_face"; "n_max_face_nodes"]
            [("_FillValue", PInt Defaults.INT_FILL_VALUE)]
            (IntArray 64 [1%N; 4%N] [0; 1; 2; Defaults.INT_FILL_VALUE]%Z))];
     coord_names := ∅ |}.

(** The four markers of a UGRID dataset on one variable, which is a
    coordinate of the dataset. *)
Definition markers_on_coordinate : Dataset :=
  {| variables := [("mesh", topology "x y")];
     coord_names := {[ "mesh" ]} |}.

(** A mesh whose connectivity has one name for both dimensions. *)
Definition one_dimension_name : Dataset :=
  {| variables :=
       [("Mesh2d", topology "x y");
        ("x", var ["nNodes"] [] lon);
        ("y", var ["nNodes"] [] lat);
        ("fnc", var ["n"; "n"] [("_FillValue", PInt (-1))]
                  (IntArray 32 [2%N; 2%N] [0; 1; 2; -1]%Z))];
     coord_names := ∅ |}.

(** [scenario] as [_read_ugrid] returns it with the constants of
    [Defaults], and the dimension map that comes with it. *)
Definition scenario_normalized : Dataset :=
  {| variables :=
       [("Mesh2", topology "x y");
        ("node_lon", var ["n_node"] [] lon);
        ("node_lat", var ["n_node"] [] lat);
        ("face_node_connectivity",
          var ["n_face"; "n_max_face_nodes"]
            [("_FillValue", PInt Defaults.INT_FILL_VALUE)]
            (IntArray 64 [3%N; 4%N]
               [0; 1; 2; Defaults.INT_FILL_VALUE;
                0; 2; 3; Defaults.INT_FILL_VALUE;
                0; 1; 3; Defaults.INT_FILL_VALUE]%Z))];
     coord_names := {[ "node_lon"; "node_lat" ]} |}.

Definition scenario_dims : gmap string string :=
  {[ "nNodes" := "n_node"; "n_face" := "n_face";
     "n_max_face_nodes" := "n_max_face_nodes" ]}.

(** The scenario with one more variable, called [Mesh2]. *)
Definition mesh2_taken : Dataset :=
  {| variables := [("Mesh2d", topology "x y");
                   ("Mesh2", var [] [] (IntArray 32 [] [0%Z]));
                   ("x", var ["nNodes"] [] lon);
                   ("y", var ["nNodes"] [] lat);
                   ("fnc", fnc)];
     coord_names := ∅ |}.

(** A topology variable that names its connectivity and no
    coordinates. *)
Definition no_node_coordinates : Dataset :=
  {| variables :=
       [("Mesh2d", var [] [("cf_role", PStr "mesh_topology");
                           ("face_node_connectivity", PStr "fnc")]
                     (IntArray 32 [] [0%Z]));
        ("x", var ["nNodes"] [] lon);
        ("fnc", fnc)];
     coord_names := ∅ |}.

End Samples.

(** ** Vocabulary of the statements *)

(** Some data variable of [ds] satisfies [P]. *)
Definition some_data_var (ds : Dataset) (P : Var → Prop) : Prop :=
  ∃ k v, (k, v) ∈ data_vars ds ∧ P v.

(** The attribute [a] of [v] is present. *)
Definition has_attr (a : string) (v : Var) : Prop := is_Some (attrs v !! a).

(** The attribute [a] of [v] is the string [s]. *)
Definition attr_is (a s : string) (v : Var) : Prop := attrs v !! a = Some (PStr s).

(** The sentinel of a connectivity array, by the priority order of the
    design document: (a) the [_FillValue] attribute when there is one;
    (b) else NaN when the dtype is floating-point and the array holds a NaN;
    (c) else none. *)
Inductive sentinel_by_priority (fnc : DataArray) : option pyval → Prop :=
| sentinel_attribute (x : pyval) :
    attrs (variable fnc) !! "_FillValue" = Some x →
    sentinel_by_priority fnc (Some x)
| sentinel_nan :
    attrs (variable fnc) !! "_FillValue" = None →
    is_floating (dtype_of (values fnc)) = true →
    contains_nan (values fnc) →
    sentinel_by_priority fnc (Some nan)
| sentinel_absent :
    attrs (variable fnc) !! "_FillValue" = None →
    ¬ (is_floating (dtype_of (values fnc)) = true ∧ contains_nan (values fnc)) →
    sentinel_by_priority fnc None.

(** What [rename] makes of one entry of the dataset. *)
Definition rename_entry (d : gmap string string) (kv : string * Var) : string * Var :=
  (rename_name d kv.1, rename_var d kv.2).

(** Some variable of [ds], coordinate or not, satisfies [P]. *)
Definition some_var (ds : Dataset) (P : Var → Prop) : Prop :=
  ∃ k v, (k, v) ∈ variables ds ∧ P v.

(** Lines 19-38 of [_read_ugrid]: the dataset as it is when the
    dimensions of the connectivity are about to be renamed. *)
Definition variables_renamed (xr_ds : Dataset) : result Dataset :=
  base_xarray_var ←
    list_getitem
      (keys (filter_by_attrs [("cf_role", Literal (PStr "mesh_topology"))] xr_ds)) 0;
  xr_ds ← rename {[ base_xarray_var := "Mesh2" ]} xr_ds;
  mesh2 ← getitem xr_ds "Mesh2";
  node_coordinates ← da_getattr mesh2 "node_coordinates";
  coord_names ← pyval_split node_coordinates;
  xr_ds ← rename_coords coord_names xr_ds;
  node_lon ← getitem xr_ds "node_lon";
  let coord_dim_name := dims (variable node_lon) in
  d ← list_getitem coord_dim_name 0;
  xr_ds ← rename {[ d := "n_node" ]} xr_ds;
  mesh2 ← getitem xr_ds "Mesh2";
  face_node_connectivity ← da_getattr mesh2 "face_node_connectivity";
  face_node_names ← pyval_split face_node_connectivity;
  face_node_name ← list_getitem face_node_names 0;
  fnc ← getitem xr_ds face_node_name;
  rename {[ name fnc := "face_node_connectivity" ]} xr_ds.

(** Two variables with the same attributes and the same data. *)
Definition same_payload (v v' : Var) : Prop :=
  attrs v' = attrs v ∧ data v' = data v.

(** ** Facts about the container model *)

Section ModelFacts.
Implicit Types (ds : Dataset) (vs : list (string * Var)) (k : string) (v : Var).

Lemma lookup_var_elem_of k v vs : lookup_var k vs = Some v → (k, v) ∈ vs.
Proof.
  induction vs as [|[k' v'] vs IH]; simpl; [done|].
  destruct (String.eqb_spec k k') as [->|Hne].
  - intros [= ->]. left.
  - intros H. right. auto.
Qed.

Lemma lookup_var_is_Some k vs : is_Some (lookup_var k vs) ↔ k ∈ vs.*1.
Proof.
  induction vs as [|[k' v'] vs IH]; simpl.
  - split; [intros [? [=]] | intros H; inversion H].
  - destruct (String.eqb_spec k k') as [->|Hne].
    + split; [left | eauto].
    + rewrite IH. split; [by right|].
      intros H. inversion H; by subst.
Qed.

Lemma lookup_var_None k vs : lookup_var k vs = None ↔ k ∉ vs.*1.
Proof. rewrite <- lookup_var_is_Some, eq_None_not_Some. done. Qed.

Lemma picked_names vs (names : list string) :
  (∀ k, k ∈ names → k ∈ vs.*1) →
  (omap (λ k, (λ v, (k, v)) <$> lookup_var k vs) names).*1 = names.
Proof.
  induction names as [|k names IH]; intros Hin; simpl; [done|].
  destruct (lookup_var k vs) as [v|] eqn:Hk; simpl.
  - f_equal. apply IH. intros k' Hk'. apply Hin. by right.
  - exfalso. apply lookup_var_None in Hk. apply Hk, Hin. left.
Qed.

Lemma subset_of_true (l needed : list string) :
  subset_of l needed = true ↔ ∀ d, d ∈ l → d ∈ needed.
Proof.
  unfold subset_of. rewrite forallb_forall. split.
  - intros H d Hd. eapply bool_decide_eq_true_1, H, list_elem_of_In, Hd.
  - intros H d Hd. eapply bool_decide_eq_true_2, H, list_elem_of_In, Hd.
Qed.

Lemma filter_none {A} (P : A → Prop) `{!∀ x, Decision (P x)} (l : list A) :
  (∀ x, x ∈ l → ¬ P x) → filter P l = [].
Proof.
  induction l as [|x l IH]; intros Hall; [done|].
  rewrite filter_cons_False by (apply Hall; left).
  apply IH. intros y Hy. apply Hall. by right.
Qed.

Lemma filter_agree {A} (P Q : A → Prop)
    `{!∀ x, Decision (P x)} `{!∀ x, Decision (Q x)} (l : list A) :
  (∀ x, x ∈ l → P x ↔ Q x) → filter P l = filter Q l.
Proof.
  induction l as [|x l IH]; intros Hall; [done|].
  rewrite !filter_cons.
  assert (Hx : P x ↔ Q x) by (apply Hall; left).
  rewrite IH by (intros y Hy; apply Hall; by right).
  destruct (decide (P x)), (decide (Q x)); tauto || done.
Qed.

Lemma filter_on_names (Q : string → Prop)
    `{!∀ k, Decision (Q k)} `{!∀ kv : string * Var, Decision (Q kv.1)} vs :
  (filter (λ kv : string * Var, Q kv.1) vs).*1 = filter Q vs.*1.
Proof.
  induction vs as [|[k v] vs IH]; [done|].
  rewrite fmap_cons, !filter_cons. simpl.
  unfold decide. destruct (H k), (H0 (k, v)); simpl in *;
    [f_equal; apply IH | tauto | tauto | apply IH].
Qed.

(** What [keys] and [len] see of [filter_by_attrs]: the data variables
    that match, in the order of the dataset. *)
Lemma keys_filter_by_attrs kwargs ds :
  keys (filter_by_attrs kwargs ds)
  = (filter (λ kv, var_matches kwargs kv.2 = true) (data_vars ds)).*1.
Proof.
  unfold keys, filter_by_attrs, _copy_listed, data_vars at 1. simpl.
  set (sel := (filter (λ kv, var_matches kwargs kv.2 = true) (variables ds)).*1).
  set (picked := omap (λ k, (λ v, (k, v)) <$> lookup_var k (variables ds)) sel).
  set (needed := concat (map (λ kv, dims kv.2) picked)).
  set (coords := filter (λ kv, is_coord ds kv.1 = true ∧ subset_of (dims kv.2) needed = true) (variables ds)).
  assert (Hsel : ∀ k, k ∈ sel → k ∈ (variables ds).*1).
  { intros k [[k' v] [-> Hin]]%list_elem_of_fmap.
    apply list_elem_of_filter in Hin as [_ Hin].
    apply list_elem_of_fmap. by exists (k', v). }
  assert (Hpn : picked.*1 = sel) by (by apply picked_names).
  assert (Hcoord : ∀ kv, kv ∈ picked →
            is_coord {| variables := picked ++ filter (λ kv, lookup_var kv.1 picked = None) coords;
                        coord_names := list_to_set coords.*1 |} kv.1
            = is_coord ds kv.1).
  { intros [k v] Hin. unfold is_coord at 1. simpl.
    apply list_elem_of_omap in Hin as (k0 & Hk0 & Hv).
    destruct (lookup_var k0 (variables ds)) as [v0|] eqn:Hl; simpl in Hv; [|done].
    injection Hv as <- <-.
    destruct (is_coord ds k0) eqn:Hc.
    - apply bool_decide_eq_true, elem_of_list_to_set, list_elem_of_fmap.
      exists (k0, v0). split; [done|].
      apply list_elem_of_filter. split; [|by apply lookup_var_elem_of].
      split; [done|]. apply subset_of_true. intros d Hd.
      unfold needed. apply list_elem_of_In, in_concat. exists (dims v0).
      split; [|by apply list_elem_of_In].
      apply in_map_iff. exists (k0, v0). split; [done|].
      apply list_elem_of_In, list_elem_of_omap. exists k0. by rewrite Hl.
    - apply bool_decide_eq_false. rewrite elem_of_list_to_set, list_elem_of_fmap.
      intros ([k1 v1] & Heq & Hin). apply list_elem_of_filter in Hin as [[Hc1 _] _].
      simpl in Heq, Hc1. congruence. }
  rewrite filter_app.
  match goal with |- context [filter ?P (filter ?Q coords)] =>
    replace (filter P (filter Q coords)) with (@nil (string * Var)) end.
  2:{ symmetry. apply filter_none. intros [k v] Hin Hc. simpl in Hc.
      apply list_elem_of_filter in Hin as [_ Hin].
      unfold is_coord in Hc. simpl in Hc. apply bool_decide_eq_false in Hc.
      apply Hc, elem_of_list_to_set, list_elem_of_fmap. by exists (k, v). }
  rewrite app_nil_r.
  rewrite (filter_agree _ (λ kv, is_coord ds kv.1 = false) picked)
    by (intros kv Hkv; by rewrite Hcoord).
  rewrite (filter_on_names (λ k, is_coord ds k = false)), Hpn.
  unfold data_vars. rewrite list_filter_filter.
  rewrite (list_filter_iff _ (λ kv, is_coord ds kv.1 = false ∧ var_matches kwargs kv.2 = true))
    by (intros; tauto).
  rewrite <- list_filter_filter.
  by rewrite (filter_on_names (λ k, is_coord ds k = false)).
Qed.
End ModelFacts.

Section FilterFacts.
Implicit Types (ds : Dataset) (v : Var).

Lemma len_keys ds : len ds = length (keys ds).
Proof. unfold len, keys. by rewrite length_fmap. Qed.

Lemma len_filter_by_attrs kwargs ds :
  (len (filter_by_attrs kwargs ds) =? 0)%nat = false
  ↔ some_data_var ds (λ v, var_matches kwargs v = true).
Proof.
  rewrite len_keys, keys_filter_by_attrs, length_fmap.
  unfold some_data_var.
  destruct (filter _ (data_vars ds)) as [|[k v] l] eqn:Hf; simpl.
  - split; [done|]. intros (k & v & Hin & Hm).
    eapply (filter_nil_not_elem_of _ _ (k, v)) in Hf; done.
  - split; [|done]. intros _. exists k, v.
    assert (Hin : (k, v) ∈ filter (λ kv, var_matches kwargs kv.2 = true) (data_vars ds))
      by (rewrite Hf; left).
    apply list_elem_of_filter in Hin as [? ?]. done.
Qed.

Lemma matches_literal_str a s v :
  var_matches [(a, Literal (PStr s))] v = true ↔ attr_is a s v.
Proof.
  unfold var_matches, attr_is. simpl. rewrite andb_true_r.
  destruct (attrs v !! a) as [[t|z|f]|]; simpl.
  - rewrite String.eqb_eq. split; [by intros -> | by intros [= ->]].
  - split; [done | intros [=]].
  - destruct f; (split; [done | intros [=]]).
  - split; [done | intros [=]].
Qed.

Lemma matches_not_None a v :
  var_matches [(a, Callable is_not_None)] v = true ↔ has_attr a v.
Proof.
  unfold var_matches, has_attr. simpl. rewrite andb_true_r.
  destruct (attrs v !! a); simpl; split; eauto; try done.
Qed.

End FilterFacts.

(** ** Conformance predicates *)

Lemma some_data_var_iff ds (P Q : Var → Prop) :
  (∀ v, P v ↔ Q v) → some_data_var ds P ↔ some_data_var ds Q.
Proof.
  intros HPQ. unfold some_data_var.
  split; intros (k & v & Hin & HP); exists k, v; (split; [done|]); by apply HPQ.
Qed.

(** C8, as the code has it: [_is_ugrid ds] is true exactly when [ds]
    has a data variable whose [cf_role] is ["mesh_topology"], a data variable
    with a [topology_dimension] attribute, a data variable with a
    [face_node_connectivity] attribute and a data variable with a
    [node_coordinates] attribute, each condition on its own; a coordinate
    variable does not count, as the length of a dataset is the number of
    its data variables.  It is false when no variable has any attribute. *)
Theorem is_ugrid_iff (ds : Dataset) :
  (_is_ugrid ds = true ↔
     some_data_var ds (attr_is "cf_role" "mesh_topology")
     ∧ some_data_var ds (has_attr "topology_dimension")
     ∧ some_data_var ds (has_attr "face_node_connectivity")
     ∧ some_data_var ds (has_attr "node_coordinates"))
  ∧ ((∀ k v, (k, v) ∈ variables ds → attrs v = ∅) → _is_ugrid ds = false).
Proof.
  assert (Hiff : _is_ugrid ds = true ↔
     some_data_var ds (attr_is "cf_role" "mesh_topology")
     ∧ some_data_var ds (has_attr "topology_dimension")
     ∧ some_data_var ds (has_attr "face_node_connectivity")
     ∧ some_data_var ds (has_attr "node_coordinates")).
  { unfold _is_ugrid.
    rewrite <- (some_data_var_iff ds _ _ (matches_literal_str "cf_role" "mesh_topology")).
    rewrite <- (some_data_var_iff ds _ _ (matches_not_None "topology_dimension")).
    rewrite <- (some_data_var_iff ds _ _ (matches_not_None "face_node_connectivity")).
    rewrite <- (some_data_var_iff ds _ _ (matches_not_None "node_coordinates")).
    rewrite <- !len_filter_by_attrs.
    destruct (len (filter_by_attrs [("cf_role", _)] ds) =? 0)%nat,
             (len (filter_by_attrs [("topology_dimension", _)] ds) =? 0)%nat,
             (len (filter_by_attrs [("face_node_connectivity", _)] ds) =? 0)%nat,
             (len (filter_by_attrs [("node_coordinates", _)] ds) =? 0)%nat;
      simpl; intuition congruence. }
  split; [exact Hiff|].
  intros Hbare. apply not_true_is_false. rewrite Hiff.
  intros [(k & v & Hin & Hrole) _].
  apply list_elem_of_filter in Hin as [_ Hin].
  unfold attr_is in Hrole. rewrite (Hbare k v Hin) in Hrole. done.
Qed.

Lemma is_ugrid_split_markers :
  _is_ugrid Samples.scenario = true ∧ _is_ugrid Samples.split_markers = true.
Proof. split; vm_compute; reflexivity. Qed.

Lemma is_ugrid_iff_witness : _is_ugrid Samples.lonlat_only = false.
Proof.
  apply (is_ugrid_iff Samples.lonlat_only).
  intros k v Hin. unfold Samples.lonlat_only in Hin. simpl in Hin.
  repeat (apply elem_of_cons in Hin as [[= _ ->] | Hin]; [reflexivity|]).
  inversion Hin.
Defined.

(** C8, the input that refutes it: a dataset whose one variable has all
    four markers and is a coordinate.  Each of the four conditions of the
    claim holds of a variable of the dataset, and [_is_ugrid] is false. *)
Lemma is_ugrid_coordinate_markers_counterexample :
  some_var Samples.markers_on_coordinate (attr_is "cf_role" "mesh_topology")
  ∧ some_var Samples.markers_on_coordinate (has_attr "topology_dimension")
  ∧ some_var Samples.markers_on_coordinate (has_attr "face_node_connectivity")
  ∧ some_var Samples.markers_on_coordinate (has_attr "node_coordinates")
  ∧ _is_ugrid Samples.markers_on_coordinate = false.
Proof.
  assert (Hin : ("mesh", Samples.topology "x y")
                ∈ variables Samples.markers_on_coordinate) by left.
  split; [|split; [|split; [|split]]].
  - exists "mesh", (Samples.topology "x y"). split; [exact Hin | reflexivity].
  - exists "mesh", (Samples.topology "x y"). split; [exact Hin | by eexists].
  - exists "mesh", (Samples.topology "x y"). split; [exact Hin | by eexists].
  - exists "mesh", (Samples.topology "x y"). split; [exact Hin | by eexists].
  - vm_compute. reflexivity.
Qed.

(** C9: [_encode_ugrid] hands its argument back as it is. *)
Theorem encode_ugrid_identity (ds : Dataset) : _encode_ugrid ds = ds.
Proof. reflexivity. Qed.

(** What [_validate_minimum_ugrid] computes: both of longitude and
    latitude, or all of x, y, z together with the connectivity. *)
Lemma validate_minimum_ugrid_reads_as (ds : Dataset) :
  _validate_minimum_ugrid ds = true ↔
    (contains ds "node_lon" = true ∧ contains ds "node_lat" = true)
    ∨ (contains ds "node_x" = true ∧ contains ds "node_y" = true
       ∧ contains ds "node_z" = true
       ∧ contains ds "face_node_connectivity" = true).
Proof.
  unfold _validate_minimum_ugrid.
  rewrite orb_true_iff, !andb_true_iff. tauto.
Qed.

(** C1, at the input where the code departs from it: a dataset with
    [node_lon] and [node_lat] and no [face_node_connectivity] is accepted
    by [_validate_minimum_ugrid]. *)
Theorem validate_minimum_ugrid_without_connectivity :
  contains Samples.lonlat_only "node_lon" = true
  ∧ contains Samples.lonlat_only "node_lat" = true
  ∧ contains Samples.lonlat_only "face_node_connectivity" = false
  ∧ _validate_minimum_ugrid Samples.lonlat_only = true.
Proof. repeat split; vm_compute; reflexivity. Qed.

(** ** Normalization: the failures *)

(** With three names that are the canonical ones already, nothing is
    renamed and normalization goes through. *)
Lemma read_ugrid_three_canonical_names :
  length (split "node_lon node_lat node_z") = 3
  ∧ ∃ ds m,
      _read_ugrid Defaults.INT_DTYPE Defaults.INT_FILL_VALUE
        Defaults._replace_fill_values Samples.three_canonical_names = Ok (ds, m).
Proof. split; [reflexivity|]. eexists _, _. vm_compute. reflexivity. Qed.

Section ReadFailures.
Variable INT_DTYPE : dtype.
Variable INT_FILL_VALUE : Z.
Variable _replace_fill_values : ndarray → option pyval → Z → dtype → result ndarray.

Local Abbreviation read := (_read_ugrid INT_DTYPE INT_FILL_VALUE _replace_fill_values).

(** C3, as the code has it: when no variable of the dataset (no data
    variable, which is what [keys] lists) has [cf_role] equal to
    ["mesh_topology"], [_read_ugrid] raises the [IndexError] of taking the
    first element of an empty list. *)
Theorem read_ugrid_no_topology (ds : Dataset) :
  ¬ some_data_var ds (attr_is "cf_role" "mesh_topology") →
  read ds = Raise IndexError.
Proof.
  intros Hnone. unfold _read_ugrid.
  assert (Hlen : (len (filter_by_attrs [("cf_role", Literal (PStr "mesh_topology"))] ds) =? 0)%nat = true).
  { apply not_false_is_true. rewrite len_filter_by_attrs.
    by rewrite (some_data_var_iff ds _ _ (matches_literal_str "cf_role" "mesh_topology")). }
  rewrite len_keys in Hlen. apply Nat.eqb_eq in Hlen.
  destruct (keys _) as [|k l]; [reflexivity | discriminate].
Qed.

(** C4, as the code has it: when the topology variable (renamed to
    [Mesh2], giving [ds1]) has a [node_coordinates] attribute that splits
    into a number of names other than 1 or 2, no coordinate is renamed, and
    when [ds1] has no variable and no dimension called [node_lon] the
    lookup of [node_lon] raises [KeyError]. *)
Theorem read_ugrid_other_coordinate_count
    (ds ds1 : Dataset) (base : string) (mesh2 : DataArray) (s : string) :
  list_getitem
    (keys (filter_by_attrs [("cf_role", Literal (PStr "mesh_topology"))] ds)) 0
    = Ok base →
  rename {[ base := "Mesh2" ]} ds = Ok ds1 →
  getitem ds1 "Mesh2" = Ok mesh2 →
  attr_is "node_coordinates" s (variable mesh2) →
  length (split s) ≠ 1 →
  length (split s) ≠ 2 →
  contains ds1 "node_lon" = false →
  is_dim ds1 "node_lon" = false →
  read ds = Raise KeyError.
Proof.
  intros Hbase Hren Hmesh Hattr H1 H2 Hvar Hdim.
  unfold _read_ugrid. rewrite Hbase. simpl. rewrite Hren. simpl.
  rewrite Hmesh. simpl. unfold da_getattr. rewrite Hattr. simpl.
  unfold rename_coords.
  destruct (Nat.eqb_spec (length (split s)) 1) as [|_]; [done|].
  destruct (Nat.eqb_spec (length (split s)) 2) as [|_]; [done|].
  simpl. unfold getitem. rewrite Hdim.
  unfold contains in Hvar. apply bool_decide_eq_false in Hvar.
  destruct (lookup_var "node_lon" (variables ds1)); [|reflexivity].
  exfalso. eauto.
Qed.

End ReadFailures.

(** C3, the input that refutes it: a mesh without a topology variable
    makes [_read_ugrid] raise [IndexError], which is not
    [TopologyNotFound]. *)
Lemma read_ugrid_no_topology_counterexample :
  (∀ k v, (k, v) ∈ variables Samples.untagged → ¬ attr_is "cf_role" "mesh_topology" v)
  ∧ _read_ugrid Defaults.INT_DTYPE Defaults.INT_FILL_VALUE
      Defaults._replace_fill_values Samples.untagged = Raise IndexError
  ∧ _read_ugrid Defaults.INT_DTYPE Defaults.INT_FILL_VALUE
      Defaults._replace_fill_values Samples.untagged ≠ Raise TopologyNotFound.
Proof.
  split; [|split; [vm_compute; reflexivity | vm_compute; discriminate]].
  intros k v Hin. simpl in Hin.
  repeat (apply elem_of_cons in Hin as [[= _ ->] | Hin]; [vm_compute; discriminate|]).
  inversion Hin.
Qed.

Lemma read_ugrid_no_topology_witness :
  _read_ugrid Defaults.INT_DTYPE Defaults.INT_FILL_VALUE
    Defaults._replace_fill_values Samples.untagged = Raise IndexError.
Proof.
  apply read_ugrid_no_topology.
  intros (k & v & Hin & Hrole).
  apply list_elem_of_filter in Hin as [_ Hin]. simpl in Hin.
  repeat (apply elem_of_cons in Hin as [[= _ ->] | Hin]; [vm_compute in Hrole; discriminate|]).
  inversion Hin.
Defined.

(** C4, the input that refutes it: with three coordinate names
    [_read_ugrid] raises [KeyError], which is not
    [MalformedCoordinateReference]. *)
Lemma read_ugrid_three_coordinates_counterexample :
  (∃ mesh, lookup_var "Mesh2d" (variables Samples.three_coordinates) = Some mesh
           ∧ attr_is "cf_role" "mesh_topology" mesh
           ∧ attr_is "node_coordinates" "x y z" mesh)
  ∧ length (split "x y z") = 3
  ∧ _read_ugrid Defaults.INT_DTYPE Defaults.INT_FILL_VALUE
      Defaults._replace_fill_values Samples.three_coordinates = Raise KeyError
  ∧ _read_ugrid Defaults.INT_DTYPE Defaults.INT_FILL_VALUE
      Defaults._replace_fill_values Samples.three_coordinates
    ≠ Raise MalformedCoordinateReference.
Proof.
  split; [eexists; split; [reflexivity|]; split; vm_compute; reflexivity|].
  split; [reflexivity|].
  split; [vm_compute; reflexivity | vm_compute; discriminate].
Qed.

Lemma read_ugrid_other_coordinate_count_witness :
  _read_ugrid Defaults.INT_DTYPE Defaults.INT_FILL_VALUE
    Defaults._replace_fill_values Samples.three_coordinates = Raise KeyError.
Proof.
  apply (read_ugrid_other_coordinate_count _ _ _
           Samples.three_coordinates Samples.three_coordinates_renamed "Mesh2d"
           (mkDataArray "Mesh2" (Samples.topology "x y z")) "x y z").
  - vm_compute. reflexivity.
  - vm_compute. reflexivity.
  - vm_compute. reflexivity.
  - vm_compute. reflexivity.
  - vm_compute. lia.
  - vm_compute. lia.
  - vm_compute. reflexivity.
  - vm_compute. reflexivity.
Defined.

(** ** Normalization: one coordinate name, and the dimension map *)

Lemma set_coords_missing (names : list string) (ds : Dataset) (k : string) :
  k ∈ names → contains ds k = false → set_coords names ds = Raise ValueError.
Proof.
  intros Hin Hk. unfold set_coords.
  destruct (forallb (contains ds) names) eqn:Hall; [|reflexivity].
  rewrite forallb_forall in Hall.
  apply list_elem_of_In, Hall in Hin. congruence.
Qed.

(** C5, at the input where the code departs from it: a mesh whose
    [node_coordinates] names the one variable [x] is not normalized;
    [_read_ugrid] raises [ValueError], whatever the constants are. *)
Theorem read_ugrid_one_coordinate
    (INT_DTYPE : dtype) (INT_FILL_VALUE : Z)
    (_replace_fill_values : ndarray → option pyval → Z → dtype → result ndarray) :
  length (split "x") = 1
  ∧ _read_ugrid INT_DTYPE INT_FILL_VALUE _replace_fill_values Samples.one_coordinate
    = Raise ValueError.
Proof. split; [reflexivity | vm_compute; reflexivity]. Qed.

(** C2, at the input where the code departs from it: on the scenario of
    the design document, whose connectivity has the dimensions [nFaces] and
    [nMaxNodes], the dimension map that [_read_ugrid] returns has the keys
    [nNodes], [n_face] and [n_max_face_nodes]; [nFaces] and [nMaxNodes] are
    not among them. *)
Theorem read_ugrid_source_dims_scenario :
  ∃ ds m,
    _read_ugrid Defaults.INT_DTYPE Defaults.INT_FILL_VALUE
      Defaults._replace_fill_values Samples.scenario = Ok (ds, m)
    ∧ m = {[ "nNodes" := "n_node"; "n_face" := "n_face";
             "n_max_face_nodes" := "n_max_face_nodes" ]}
    ∧ m !! "nFaces" = None
    ∧ m !! "nMaxNodes" = None.
Proof.
  eexists _, _. split; [vm_compute; reflexivity|].
  split; [vm_compute; reflexivity|]. split; reflexivity.
Qed.

(** ** Fill values *)

Lemma isnan_any_spec (a : ndarray) :
  isnan_any a = true ↔ is_floating (dtype_of a) = true ∧ contains_nan a.
Proof.
  destruct a as [b sh l | b sh l]; simpl.
  - split; [done | by intros [_ []]].
  - rewrite existsb_exists. split.
    + intros (f & Hin & Hnan). split; [done|].
      destruct f; try discriminate. by apply list_elem_of_In.
    + intros [_ Hin]. exists FNaN. split; [by apply list_elem_of_In | done].
Qed.

Lemma lookup_update_var (k : string) (f : Var → Var) (vs : list (string * Var)) :
  lookup_var k (update_var k f vs) = f <$> lookup_var k vs.
Proof.
  induction vs as [|[k' v] vs IH]; simpl; [done|].
  destruct (String.eqb k k') eqn:E; simpl; rewrite E; [done | apply IH].
Qed.

Section FillValues.
Variable INT_DTYPE : dtype.
Variable INT_FILL_VALUE : Z.
Variable _replace_fill_values : ndarray → option pyval → Z → dtype → result ndarray.

Local Abbreviation standardize :=
  (_standardize_fill_values INT_DTYPE INT_FILL_VALUE _replace_fill_values).

Lemma original_fv_cases (ds : Dataset) (fnc : DataArray) :
  getitem ds "face_node_connectivity" = Ok fnc →
  ∃ fv, original_fv ds = Ok fv ∧ sentinel_by_priority fnc fv.
Proof.
  intros Hget. unfold original_fv. rewrite Hget. simpl.
  unfold attrs_contains, da_getattr.
  destruct (attrs (variable fnc) !! "_FillValue") as [x|] eqn:Hattr.
  - rewrite bool_decide_eq_true_2 by eauto. simpl.
    exists (Some x). split; [done | by constructor].
  - rewrite bool_decide_eq_false_2 by (by intros [? [=]]). simpl.
    destruct (isnan_any (values fnc)) eqn:Hnan.
    + exists (Some nan). split; [done|].
      apply isnan_any_spec in Hnan as [? ?]. by constructor.
    + exists None. split; [done|].
      apply sentinel_absent; [done|].
      rewrite <- isnan_any_spec. congruence.
Qed.

(** The priority order leaves one answer. *)
Lemma sentinel_by_priority_unique (fnc : DataArray) (a b : option pyval) :
  sentinel_by_priority fnc a → sentinel_by_priority fnc b → a = b.
Proof. intros [] []; congruence || tauto. Qed.

(** C6: the sentinel that [_standardize_fill_values] works with is the
    [_FillValue] attribute of the connectivity when it has one; otherwise
    NaN when the array is floating-point and holds a NaN; otherwise
    [None]. *)
Theorem original_fv_priority (ds : Dataset) (fnc : DataArray) :
  getitem ds "face_node_connectivity" = Ok fnc →
  ∃ fv, original_fv ds = Ok fv ∧ sentinel_by_priority fnc fv.
Proof. apply original_fv_cases. Qed.

(** C7: when the connectivity already has the canonical dtype and the
    sentinel found equals the canonical fill value,
    [_standardize_fill_values] returns the dataset as it is, data and
    [_FillValue] included, and does not call the remap. *)
Theorem standardize_fill_values_noop
    (ds : Dataset) (fnc : DataArray) (fv : option pyval) :
  getitem ds "face_node_connectivity" = Ok fnc →
  dtype_of (values fnc) = INT_DTYPE →
  original_fv ds = Ok fv →
  py_eq_opt fv (PInt INT_FILL_VALUE) = true →
  standardize ds = Ok ds.
Proof.
  intros Hget Hdtype Hfv Heq. unfold _standardize_fill_values.
  rewrite Hget, Hfv. simpl.
  rewrite bool_decide_eq_false_2 by (intros Hne; by apply Hne).
  unfold py_ne_opt. rewrite Heq. reflexivity.
Qed.

(** C10: whenever [_standardize_fill_values] returns, the
    [face_node_connectivity] variable of the result has a [_FillValue]
    attribute equal to the canonical fill value. *)
Theorem standardize_fill_values_attribute (ds ds' : Dataset) :
  standardize ds = Ok ds' →
  ∃ v fv,
    lookup_var "face_node_connectivity" (variables ds') = Some v
    ∧ attrs v !! "_FillValue" = Some fv
    ∧ py_eq fv (PInt INT_FILL_VALUE) = true.
Proof.
  unfold _standardize_fill_values.
  destruct (getitem ds "face_node_connectivity") as [fnc|] eqn:Hget; [simpl|done].
  destruct (original_fv_cases ds fnc Hget) as (fv & Hfv & Hprio).
  rewrite Hfv. simpl.
  destruct (bool_decide _ || py_ne_opt _ _) eqn:Hcond.
  - destruct (_replace_fill_values _ _ _ _) as [new|]; [simpl|done].
    unfold set_data.
    destruct (lookup_var "face_node_connectivity" (variables ds)) as [v|] eqn:Hv;
      [|destruct (is_dim _ _); simpl; done].
    destruct (bool_decide (shape new = _)); simpl; [|done].
    unfold set_attr. simpl. rewrite lookup_update_var, Hv. simpl.
    intros [= <-]. simpl. rewrite !lookup_update_var, Hv. simpl.
    eexists _, _. split; [done|]. simpl.
    rewrite lookup_insert_eq. split; [done|]. apply Z.eqb_refl.
  - intros [= <-].
    apply orb_false_elim in Hcond as [_ Hne].
    unfold py_ne_opt in Hne. apply negb_false_iff in Hne.
    destruct Hprio as [x Hattr | |]; try discriminate.
    unfold getitem in Hget.
    destruct (lookup_var "face_node_connectivity" (variables ds)) as [v|] eqn:Hv.
    + injection Hget as <-. simpl in Hattr. eauto.
    + destruct (is_dim _ _); [|done]. injection Hget as <-. done.
Qed.

End FillValues.

Lemma original_fv_priority_witness :
  ∃ fv, original_fv Samples.nan_padded = Ok fv
        ∧ sentinel_by_priority
            (mkDataArray "face_node_connectivity"
               (Samples.var ["n_face"; "n_max_face_nodes"] []
                  (FloatArray 64 [1%N; 4%N] [FNum 0; FNum 1; FNum 2; FNaN]))) fv.
Proof. apply original_fv_priority. reflexivity. Defined.

Lemma standardize_fill_values_noop_witness :
  _standardize_fill_values Defaults.INT_DTYPE Defaults.INT_FILL_VALUE
    Defaults._replace_fill_values Samples.canonical = Ok Samples.canonical.
Proof.
  eapply (standardize_fill_values_noop _ _ _ Samples.canonical _
            (Some (PInt Defaults.INT_FILL_VALUE))).
  - vm_compute. reflexivity.
  - vm_compute. reflexivity.
  - vm_compute. reflexivity.
  - vm_compute. reflexivity.
Defined.

Lemma standardize_fill_values_attribute_witness :
  ∃ v fv,
    lookup_var "face_node_connectivity" (variables Samples.nan_padded_standardized) = Some v
    ∧ attrs v !! "_FillValue" = Some fv
    ∧ py_eq fv (PInt Defaults.INT_FILL_VALUE) = true.
Proof.
  apply (standardize_fill_values_attribute Defaults.INT_DTYPE Defaults.INT_FILL_VALUE
           Defaults._replace_fill_values Samples.nan_padded).
  vm_compute. reflexivity.
Defined.

(** ** Normalization, for every input *)

Lemma lookup_var_snoc (k k' : string) (v : Var) (acc : list (string * Var)) :
  lookup_var k (acc ++ [(k', v)])
  = match lookup_var k acc with
    | Some x => Some x
    | None => if String.eqb k k' then Some v else None
    end.
Proof.
  induction acc as [|[k0 v0] acc IH]; simpl; [done|].
  by destruct (String.eqb k k0).
Qed.

Lemma lookup_update_var_any (k k' : string) (f : Var → Var) (vs : list (string * Var)) :
  lookup_var k (update_var k' f vs)
  = (if String.eqb k k' then f else id) <$> lookup_var k vs.
Proof.
  induction vs as [|[k0 v] vs IH]; simpl; [done|].
  destruct (String.eqb_spec k' k0) as [->|Hne]; simpl.
  - destruct (String.eqb_spec k k0) as [->|Hne']; simpl; [done|].
    by destruct (lookup_var k vs).
  - destruct (String.eqb_spec k k0) as [->|Hne']; simpl; [|apply IH].
    destruct (String.eqb_spec k0 k'); [congruence | done].
Qed.

Section RenameVars.
Variable d : gmap string string.
Implicit Types (vs acc res : list (string * Var)) (k : string).

(** What is in the accumulator stays. *)
Lemma rename_vars_keeps vs : ∀ acc res k v,
  rename_vars d vs acc = Ok res →
  lookup_var k acc = Some v → lookup_var k res = Some v.
Proof.
  induction vs as [|[k0 v0] vs IH]; intros acc res k v Hres Hacc; simpl in Hres.
  - by injection Hres as <-.
  - destruct (lookup_var (rename_name d k0) acc); [done|].
    apply (IH _ _ _ _ Hres). by rewrite lookup_var_snoc, Hacc.
Qed.

(** A name that nothing is renamed to stays free. *)
Lemma rename_vars_free vs : ∀ acc res k,
  (∀ k0, rename_name d k0 ≠ k) →
  rename_vars d vs acc = Ok res →
  lookup_var k acc = None → lookup_var k res = None.
Proof.
  induction vs as [|[k0 v0] vs IH]; intros acc res k Hk Hres Hacc; simpl in Hres.
  - by injection Hres as <-.
  - destruct (lookup_var (rename_name d k0) acc); [done|].
    apply (IH _ _ _ Hk Hres). rewrite lookup_var_snoc, Hacc.
    destruct (String.eqb_spec k (rename_name d k0)) as [Heq|]; [|done].
    by destruct (Hk k0).
Qed.

(** A name that is kept, and that no other name is renamed to, names
    the same variable as before, with its dimensions renamed. *)
Lemma rename_vars_same vs : ∀ acc res k,
  (∀ k0, rename_name d k0 = k → k0 = k) →
  rename_name d k = k →
  rename_vars d vs acc = Ok res →
  lookup_var k acc = None →
  lookup_var k res = rename_var d <$> lookup_var k vs.
Proof.
  induction vs as [|[k0 v0] vs IH]; intros acc res k Hk Hkeep Hres Hacc;
    simpl in Hres.
  - injection Hres as <-. by rewrite Hacc.
  - destruct (lookup_var (rename_name d k0) acc); [done|]. simpl.
    destruct (String.eqb_spec k k0) as [<-|Hne]; simpl.
    + apply (rename_vars_keeps _ _ _ _ _ Hres).
      by rewrite lookup_var_snoc, Hacc, Hkeep, String.eqb_refl.
    + apply (IH _ _ _ Hk Hkeep Hres). rewrite lookup_var_snoc, Hacc.
      destruct (String.eqb_spec k (rename_name d k0)) as [Heq|]; [|done].
      symmetry in Heq. apply Hk in Heq. congruence.
Qed.

End RenameVars.

Lemma rename_variables (d : gmap string string) (ds ds' : Dataset) :
  rename d ds = Ok ds' → rename_vars d (variables ds) [] = Ok (variables ds').
Proof.
  unfold rename. destruct (forallb _ _); [simpl|done].
  destruct (rename_vars d (variables ds) []); simpl; [|done].
  by intros [= <-].
Qed.

Lemma set_coords_variables (names : list string) (ds ds' : Dataset) :
  set_coords names ds = Ok ds' → variables ds' = variables ds.
Proof. unfold set_coords. destruct (forallb _ _); [|done]. by intros [= <-]. Qed.

(** A view with a second dimension is a view of a variable. *)
Lemma getitem_second_dim (ds : Dataset) (k d1 : string) (da : DataArray) :
  getitem ds k = Ok da →
  list_getitem (dims (variable da)) 1 = Ok d1 →
  lookup_var k (variables ds) = Some (variable da) ∧ dims (variable da) !! 1 = Some d1.
Proof.
  unfold getitem, list_getitem.
  destruct (lookup_var k (variables ds)) as [v|].
  - intros [= <-]. simpl. destruct (dims v !! 1); [|done]. by intros [= ->].
  - destruct (is_dim ds k); [|done]. by intros [= <-].
Qed.

(** One step of a computation that succeeds: name the result of the
    first bind. *)
Ltac bind_as x H :=
  match goal with
  | |- mbind _ ?e = Ok _ → _ => destruct e as [x|] eqn:H; simpl; [|discriminate]
  end.

Section EveryInput.
Variable INT_DTYPE : dtype.
Variable INT_FILL_VALUE : Z.
Variable _replace_fill_values : ndarray → option pyval → Z → dtype → result ndarray.

(** [_standardize_fill_values] leaves the dimensions of every variable
    as they are. *)
Lemma standardize_fill_values_dims (ds ds' : Dataset) (k : string) :
  _standardize_fill_values INT_DTYPE INT_FILL_VALUE _replace_fill_values ds = Ok ds' →
  dims <$> lookup_var k (variables ds') = dims <$> lookup_var k (variables ds).
Proof.
  unfold _standardize_fill_values.
  destruct (getitem ds "face_node_connectivity") as [fnc|]; [simpl|done].
  destruct (original_fv ds) as [fv|]; [simpl|done].
  destruct (_ || _); [|by intros [= <-]].
  destruct (_replace_fill_values _ _ _ _) as [new|]; [simpl|done].
  unfold set_data.
  destruct (lookup_var "face_node_connectivity" (variables ds)) as [v|] eqn:Hv;
    [|destruct (is_dim _ _); simpl; done].
  destruct (bool_decide (shape new = _)); simpl; [|done].
  unfold set_attr. simpl. rewrite lookup_update_var, Hv. simpl.
  intros [= <-]. simpl. rewrite !lookup_update_var_any.
  destruct (String.eqb k "face_node_connectivity"), (lookup_var k (variables ds)); done.
Qed.

(** Whatever the input and the constants are, a dimension map that
    [_read_ugrid] returns has the canonical name [n_max_face_nodes] as a
    key, mapped to itself: the key is read off the connectivity after its
    dimensions have been renamed. *)
Lemma read_ugrid_source_dims_canonical_key
    (ds ds' : Dataset) (m : gmap string string) :
  _read_ugrid INT_DTYPE INT_FILL_VALUE _replace_fill_values ds = Ok (ds', m) →
  m !! "n_max_face_nodes" = Some "n_max_face_nodes".
Proof.
  unfold _read_ugrid.
  bind_as base Hbase. bind_as ds1 Hds1. bind_as mesh2 Hmesh2.
  bind_as nc Hnc. bind_as cns Hcns. bind_as ds2 Hds2.
  bind_as lon Hlon. bind_as d Hd. bind_as ds3 Hds3.
  bind_as mesh2' Hmesh2'. bind_as fattr Hfattr. bind_as fns Hfns.
  bind_as fname Hfname. bind_as fda Hfda. bind_as ds4 Hds4.
  bind_as fnc4 Hfnc4. bind_as d0 Hd0. bind_as d1 Hd1.
  bind_as ds5 Hds5. bind_as ds6 Hds6. bind_as ds7 Hds7.
  bind_as fnc7 Hfnc7. bind_as d0' Hd0'. bind_as d1' Hd1'.
  intros [= <- <-].
  destruct (getitem_second_dim _ _ _ _ Hfnc4 Hd1) as [Hv4 Hdim4].
  destruct (getitem_second_dim _ _ _ _ Hfnc7 Hd1') as [Hv7 Hdim7].
  set (dmap := <[d1 := "n_max_face_nodes"]> {[d0 := "n_face"]} : gmap string string) in *.
  assert (Hvalues : ∀ k0 x, dmap !! k0 = Some x → x ≠ "face_node_connectivity").
  { intros k0 x. unfold dmap.
    rewrite lookup_insert_Some, lookup_singleton_Some.
    intros [[_ <-] | [_ [_ <-]]]; discriminate. }
  assert (Honly : ∀ k0, rename_name dmap k0 = "face_node_connectivity"
                        → k0 = "face_node_connectivity").
  { intros k0. unfold rename_name.
    destruct (dmap !! k0) as [x|] eqn:Hx; simpl; [|done].
    intros ->. by destruct (Hvalues _ _ Hx). }
  pose proof (standardize_fill_values_dims _ _ "face_node_connectivity" Hds7) as Hdims.
  rewrite (set_coords_variables _ _ _ Hds6), Hv7 in Hdims. simpl in Hdims.
  apply rename_variables in Hds5.
  destruct (dmap !! "face_node_connectivity") as [x|] eqn:Hx.
  - (* the connectivity variable itself is renamed away *)
    assert (Hfree : ∀ k0, rename_name dmap k0 ≠ "face_node_connectivity").
    { intros k0 Hk0. pose proof (Honly _ Hk0) as ->.
      unfold rename_name in Hk0. rewrite Hx in Hk0. simpl in Hk0.
      by destruct (Hvalues _ _ Hx). }
    rewrite (rename_vars_free dmap (variables ds4) [] (variables ds5) _ Hfree Hds5 eq_refl) in Hdims.
    done.
  - assert (Hkeep : rename_name dmap "face_node_connectivity" = "face_node_connectivity")
      by (unfold rename_name; by rewrite Hx).
    rewrite (rename_vars_same dmap (variables ds4) [] (variables ds5) _
               Honly Hkeep Hds5 eq_refl) in Hdims.
    rewrite Hv4 in Hdims. simpl in Hdims. injection Hdims as Hdims.
    rewrite Hdims, list_lookup_fmap, Hdim4 in Hdim7. simpl in Hdim7.
    injection Hdim7 as <-.
    unfold rename_name, dmap. rewrite lookup_insert_eq. simpl.
    apply lookup_insert_eq.
Qed.

(** Whatever the input and the constants are, a dataset that
    [_read_ugrid] returns has a variable [node_lat]: [set_coords] asks for
    it, also when [node_coordinates] gave one name and nothing was renamed
    to [node_lat]. *)
Lemma read_ugrid_needs_node_lat
    (ds ds' : Dataset) (m : gmap string string) :
  _read_ugrid INT_DTYPE INT_FILL_VALUE _replace_fill_values ds = Ok (ds', m) →
  contains ds' "node_lat" = true.
Proof.
  unfold _read_ugrid.
  bind_as base Hbase. bind_as ds1 Hds1. bind_as mesh2 Hmesh2.
  bind_as nc Hnc. bind_as cns Hcns. bind_as ds2 Hds2.
  bind_as lon Hlon. bind_as d Hd. bind_as ds3 Hds3.
  bind_as mesh2' Hmesh2'. bind_as fattr Hfattr. bind_as fns Hfns.
  bind_as fname Hfname. bind_as fda Hfda. bind_as ds4 Hds4.
  bind_as fnc4 Hfnc4. bind_as d0 Hd0. bind_as d1 Hd1.
  bind_as ds5 Hds5. bind_as ds6 Hds6. bind_as ds7 Hds7.
  bind_as fnc7 Hfnc7. bind_as d0' Hd0'. bind_as d1' Hd1'.
  intros [= <- <-].
  pose proof (standardize_fill_values_dims _ _ "node_lat" Hds7) as Hdims.
  unfold set_coords in Hds6.
  destruct (forallb (contains ds5) ["node_lon"; "node_lat"]) eqn:Hall; [|done].
  injection Hds6 as <-. simpl in Hdims, Hall.
  rewrite andb_true_r in Hall. apply andb_true_iff in Hall as [_ Hlat].
  unfold contains in *. apply bool_decide_eq_true in Hlat as [v Hv].
  rewrite Hv in Hdims. apply bool_decide_eq_true.
  destruct (lookup_var "node_lat" (variables ds7)); [eauto | done].
Qed.

End EveryInput.

(** ** More facts about the container model *)

Section RenameShape.
Variable d : gmap string string.
Implicit Types (vs acc res : list (string * Var)) (k : string).

(** A successful [rename_vars] is a map over the variables. *)
Lemma rename_vars_shape vs : ∀ acc res,
  rename_vars d vs acc = Ok res → res = (acc ++ map (rename_entry d) vs)%list.
Proof.
  induction vs as [|[k v] vs IH]; intros acc res Hres; simpl in Hres.
  - injection Hres as <-. by rewrite app_nil_r.
  - destruct (lookup_var (rename_name d k) acc); [done|].
    rewrite (IH _ _ Hres), <- app_assoc. done.
Qed.

(** The new names of a successful [rename_vars] are distinct. *)
Lemma rename_vars_NoDup vs : ∀ acc res,
  rename_vars d vs acc = Ok res → NoDup acc.*1 → NoDup res.*1.
Proof.
  induction vs as [|[k v] vs IH]; intros acc res Hres Hacc; simpl in Hres.
  - by injection Hres as <-.
  - destruct (lookup_var (rename_name d k) acc) eqn:Hk; [done|].
    apply (IH _ _ Hres). rewrite fmap_app. simpl.
    apply NoDup_app. split; [done|]. split; [|apply NoDup_singleton].
    intros k' Hin ->%list_elem_of_singleton.
    by apply lookup_var_None in Hk.
Qed.

(** [rename_vars] raises nothing but [ValueError]. *)
Lemma rename_vars_raises vs : ∀ acc e,
  rename_vars d vs acc = Raise e → e = ValueError.
Proof.
  induction vs as [|[k v] vs IH]; intros acc e Hres; simpl in Hres; [done|].
  destruct (lookup_var (rename_name d k) acc); [by injection Hres|].
  by apply (IH _ _ Hres).
Qed.

End RenameShape.

Lemma lookup_var_NoDup (k : string) (v : Var) (vs : list (string * Var)) :
  NoDup vs.*1 → (k, v) ∈ vs → lookup_var k vs = Some v.
Proof.
  induction vs as [|[k' v'] vs IH]; intros Hnd Hin; [inversion Hin|].
  simpl in *. apply NoDup_cons in Hnd as [Hk' Hnd].
  apply elem_of_cons in Hin as [[= -> ->] | Hin].
  - by rewrite String.eqb_refl.
  - destruct (String.eqb_spec k k') as [->|]; [|by apply IH].
    destruct Hk'. apply list_elem_of_fmap. by exists (k', v).
Qed.

Section RenameFacts.
Variable d : gmap string string.
Implicit Types (ds : Dataset) (k : string).

Lemma rename_shape ds ds' :
  rename d ds = Ok ds' →
  variables ds' = map (rename_entry d) (variables ds)
  ∧ NoDup (variables ds').*1 ∧ NoDup (variables ds).*1.
Proof.
  intros Hren. apply rename_variables in Hren.
  pose proof (rename_vars_NoDup _ _ _ _ Hren (NoDup_nil_2 : NoDup ([] : list (string * Var)).*1)) as Hnd.
  apply rename_vars_shape in Hren. simpl in Hren.
  split; [done|]. split; [done|].
  rewrite Hren in Hnd.
  assert (Heq : (map (rename_entry d) (variables ds)).*1 = rename_name d <$> (variables ds).*1).
  { clear. induction (variables ds) as [|[k v] l IH]; [done|].
    simpl. f_equal. apply IH. }
  rewrite Heq in Hnd. by apply NoDup_fmap_1 in Hnd.
Qed.

Lemma rename_raises ds e : rename d ds = Raise e → e = ValueError.
Proof.
  unfold rename. destruct (forallb _ _); [|by intros [= <-]].
  destruct (rename_vars d (variables ds) []) eqn:Hr; simpl; [done|].
  intros [= <-]. by apply rename_vars_raises in Hr.
Qed.

(** A variable of the renamed dataset whose name is no new name of [d]
    had that name before. *)
Lemma rename_elem_back ds ds' k (v' : Var) :
  rename d ds = Ok ds' →
  (∀ k0 x, d !! k0 = Some x → x ≠ k) →
  (k, v') ∈ variables ds' →
  ∃ v, (k, v) ∈ variables ds ∧ v' = rename_var d v.
Proof.
  intros [Hshape _]%rename_shape Hval Hin. rewrite Hshape in Hin.
  apply list_elem_of_In, in_map_iff in Hin as ([k0 v] & Heq & Hin).
  unfold rename_entry in Heq. simpl in Heq. injection Heq as Hk <-.
  exists v. split; [|done].
  unfold rename_name in Hk.
  destruct (d !! k0) as [x|] eqn:Hx; simpl in Hk.
  - by destruct (Hval _ _ Hx).
  - subst k0. by apply list_elem_of_In.
Qed.

(** A variable is found again under its new name. *)
Lemma rename_lookup_forward ds ds' k (v : Var) :
  rename d ds = Ok ds' →
  (k, v) ∈ variables ds →
  lookup_var (rename_name d k) (variables ds') = Some (rename_var d v).
Proof.
  intros (Hshape & Hnd & _)%rename_shape Hin.
  apply lookup_var_NoDup; [done|]. rewrite Hshape.
  apply list_elem_of_In, in_map_iff. exists (k, v). split; [done|].
  by apply list_elem_of_In.
Qed.

End RenameFacts.

(** ** More on fill values *)

Lemma update_var_twice (k : string) (f g : Var → Var) (vs : list (string * Var)) :
  update_var k g (update_var k f vs) = update_var k (λ v, g (f v)) vs.
Proof.
  induction vs as [|[k' v] vs IH]; simpl; [done|].
  destruct (String.eqb k k') eqn:E; simpl; rewrite E; [done | by rewrite IH].
Qed.

Lemma update_var_Forall2 (R : string * Var → string * Var → Prop)
    (k : string) (f : Var → Var) (vs : list (string * Var)) :
  (∀ kv, R kv kv) → (∀ v, R (k, v) (k, f v)) → Forall2 R vs (update_var k f vs).
Proof.
  intros Hrefl Hk. induction vs as [|[k' v] vs IH]; simpl; [constructor|].
  destruct (String.eqb_spec k k') as [<-|Hne].
  - constructor; [apply Hk | by apply Forall_Forall2_diag, Forall_forall].
  - by constructor.
Qed.

Section FillValuesMore.
Variable INT_DTYPE : dtype.
Variable INT_FILL_VALUE : Z.
Variable _replace_fill_values : ndarray → option pyval → Z → dtype → result ndarray.

Local Abbreviation standardize :=
  (_standardize_fill_values INT_DTYPE INT_FILL_VALUE _replace_fill_values).

(** The connectivity after a remap that returned [new]. *)
Local Abbreviation remapped new :=
  (λ v : Var, {| dims := dims v;
                 attrs := <["_FillValue" := PInt INT_FILL_VALUE]> (attrs v);
                 data := new |}).

(** The two ways in which [_standardize_fill_values] returns. *)
Lemma standardize_fill_values_inv (ds ds' : Dataset) :
  standardize ds = Ok ds' →
  ∃ v, lookup_var "face_node_connectivity" (variables ds) = Some v
  ∧ ((ds' = ds ∧ dtype_of (data v) = INT_DTYPE
      ∧ ∃ x, attrs v !! "_FillValue" = Some x ∧ py_eq x (PInt INT_FILL_VALUE) = true)
     ∨ (∃ fv new,
          original_fv ds = Ok fv
          ∧ _replace_fill_values (data v) fv INT_FILL_VALUE INT_DTYPE = Ok new
          ∧ shape new = shape (data v)
          ∧ ds' = {| variables :=
                       update_var "face_node_connectivity" (remapped new) (variables ds);
                     coord_names := coord_names ds |})).
Proof.
  unfold _standardize_fill_values.
  destruct (getitem ds "face_node_connectivity") as [fnc|] eqn:Hget; [simpl|done].
  destruct (original_fv_cases ds fnc Hget) as (fv & Hfv & Hprio).
  rewrite Hfv. simpl.
  destruct (bool_decide _ || py_ne_opt _ _) eqn:Hcond.
  - destruct (_replace_fill_values _ _ _ _) as [new|] eqn:Hnew; [simpl|done].
    unfold set_data.
    destruct (lookup_var "face_node_connectivity" (variables ds)) as [v|] eqn:Hv;
      [|destruct (is_dim _ _); simpl; done].
    destruct (bool_decide (shape new = _)) eqn:Hshape; simpl; [|done].
    unfold set_attr. simpl. rewrite lookup_update_var, Hv. simpl.
    intros [= <-]. exists v. split; [done|]. right. exists fv, new.
    unfold getitem in Hget. rewrite Hv in Hget. injection Hget as <-.
    split; [done|]. split; [done|].
    split; [by apply bool_decide_eq_true in Hshape|].
    by rewrite update_var_twice.
  - intros [= <-].
    apply orb_false_elim in Hcond as [Hdt Hne].
    unfold py_ne_opt in Hne. apply negb_false_iff in Hne.
    apply bool_decide_eq_false in Hdt. apply dec_stable in Hdt.
    destruct Hprio as [x Hattr | |]; try discriminate.
    unfold getitem in Hget.
    destruct (lookup_var "face_node_connectivity" (variables ds)) as [v|] eqn:Hv.
    + injection Hget as <-. exists v. split; [done|]. left. eauto.
    + destruct (is_dim _ _); [|done]. injection Hget as <-. done.
Qed.

(** What [_standardize_fill_values] relates, variable by variable. *)
Lemma standardize_fill_values_related (ds ds' : Dataset) :
  standardize ds = Ok ds' →
  coord_names ds' = coord_names ds
  ∧ Forall2
      (λ kv kv',
         kv'.1 = kv.1
         ∧ dims kv'.2 = dims kv.2
         ∧ (∀ a, a ≠ "_FillValue" → attrs kv'.2 !! a = attrs kv.2 !! a)
         ∧ (kv.1 ≠ "face_node_connectivity" → kv'.2 = kv.2))
      (variables ds) (variables ds').
Proof.
  intros (v & Hv & [(-> & _) | (fv & new & _ & _ & _ & ->)])%standardize_fill_values_inv.
  - split; [done|]. apply Forall_Forall2_diag, Forall_forall. done.
  - split; [done|]. simpl. apply update_var_Forall2.
    + done.
    + intros v0. simpl. repeat split; [|done].
      intros a Ha. by rewrite lookup_insert_ne.
Qed.

(** X11: [_standardize_fill_values] touches the data and the
    [_FillValue] of [face_node_connectivity] and nothing else: the
    coordinate names, the names, order and dimensions of the variables, every
    other attribute and every other variable are as before. *)
Theorem standardize_fill_values_frame (ds ds' : Dataset) :
  standardize ds = Ok ds' →
  coord_names ds' = coord_names ds
  ∧ Forall2
      (λ kv kv',
         kv'.1 = kv.1
         ∧ dims kv'.2 = dims kv.2
         ∧ (∀ a, a ≠ "_FillValue" → attrs kv'.2 !! a = attrs kv.2 !! a)
         ∧ (kv.1 ≠ "face_node_connectivity" → kv'.2 = kv.2))
      (variables ds) (variables ds').
Proof. apply standardize_fill_values_related. Qed.

(** X12: a second run changes nothing, once the first run has left the
    connectivity with the canonical dtype. *)
Theorem standardize_fill_values_idempotent (ds ds' : Dataset) (fnc : DataArray) :
  standardize ds = Ok ds' →
  getitem ds' "face_node_connectivity" = Ok fnc →
  dtype_of (values fnc) = INT_DTYPE →
  standardize ds' = Ok ds'.
Proof.
  intros Hrun Hget Hdt.
  assert (Hattr : ∃ x, attrs (variable fnc) !! "_FillValue" = Some x
                       ∧ py_eq x (PInt INT_FILL_VALUE) = true).
  { apply standardize_fill_values_inv in Hrun
      as (v & Hv & [(-> & _ & Hx) | (fv & new & _ & _ & _ & ->)]).
    - unfold getitem in Hget. rewrite Hv in Hget. by injection Hget as <-.
    - unfold getitem in Hget. simpl in Hget.
      rewrite lookup_update_var, Hv in Hget. simpl in Hget. injection Hget as <-.
      simpl. rewrite lookup_insert_eq. eexists. split; [done|]. simpl. apply Z.eqb_refl. }
  destruct Hattr as (x & Hx & Heq).
  unfold _standardize_fill_values, original_fv. rewrite Hget. simpl.
  unfold attrs_contains, da_getattr. rewrite Hx.
  rewrite (bool_decide_eq_true_2 (is_Some _)) by (by eexists). simpl.
  rewrite bool_decide_eq_false_2 by (intros Hne; by apply Hne).
  unfold py_ne_opt. simpl. by rewrite Heq.
Qed.


End FillValuesMore.

(** ** What a successful normalization returns *)

Tactic Notation "step_as" ident(x) ident(H) :=
  match goal with
  | |- mbind _ ?e = Ok _ → _ => destruct e as [x|] eqn:H; simpl; [|discriminate]
  end.

(** Runs a successful [_read_ugrid] step by step, naming every
    intermediate dataset. *)
Ltac read_ugrid_steps :=
  unfold _read_ugrid;
  step_as base Hbase; step_as ds1 Hds1; step_as mesh2 Hmesh2;
  step_as nc Hnc; step_as cns Hcns; step_as ds2 Hds2;
  step_as lon Hlon; step_as d Hd; step_as ds3 Hds3;
  step_as mesh2' Hmesh2'; step_as fattr Hfattr; step_as fns Hfns;
  step_as fname Hfname; step_as fda Hfda; step_as ds4 Hds4;
  step_as fnc4 Hfnc4; step_as d0 Hd0; step_as d1 Hd1;
  step_as ds5 Hds5; step_as ds6 Hds6; step_as ds7 Hds7;
  step_as fnc7 Hfnc7; step_as d0' Hd0'; step_as d1' Hd1';
  intros [= <- <-].

Lemma contains_true (ds : Dataset) (k : string) :
  contains ds k = true ↔ k ∈ (variables ds).*1.
Proof. unfold contains. by rewrite bool_decide_eq_true, lookup_var_is_Some. Qed.

Lemma set_coords_inv (names : list string) (ds ds' : Dataset) :
  set_coords names ds = Ok ds' →
  variables ds' = variables ds
  ∧ coord_names ds' = list_to_set names ∪ coord_names ds
  ∧ ∀ k, k ∈ names → contains ds k = true.
Proof.
  unfold set_coords. destruct (forallb (contains ds) names) eqn:Hall; [|done].
  intros [= <-]. repeat split. intros k Hk.
  rewrite forallb_forall in Hall. by apply Hall, list_elem_of_In.
Qed.

Lemma update_var_names (k : string) (f : Var → Var) (vs : list (string * Var)) :
  (update_var k f vs).*1 = vs.*1.
Proof.
  induction vs as [|[k' v] vs IH]; simpl; [done|].
  destruct (String.eqb k k'); simpl; [done | f_equal; apply IH].
Qed.

Section ReadResult.
Variable INT_DTYPE : dtype.
Variable INT_FILL_VALUE : Z.
Variable _replace_fill_values : ndarray → option pyval → Z → dtype → result ndarray.

Local Abbreviation read := (_read_ugrid INT_DTYPE INT_FILL_VALUE _replace_fill_values).
Local Abbreviation standardize :=
  (_standardize_fill_values INT_DTYPE INT_FILL_VALUE _replace_fill_values).

Lemma standardize_fill_values_names (ds ds' : Dataset) :
  standardize ds = Ok ds' →
  (variables ds').*1 = (variables ds).*1 ∧ coord_names ds' = coord_names ds.
Proof.
  intros (v & Hv & [(-> & _) | (fv & new & _ & _ & _ & ->)])%standardize_fill_values_inv;
    [done|]. split; [|done]. simpl. apply update_var_names.
Qed.

(** X1: a dataset that [_read_ugrid] returns has the variables
    [node_lon], [node_lat] and [face_node_connectivity], and
    [_validate_minimum_ugrid] accepts it. *)
Theorem read_ugrid_result_validates (ds ds' : Dataset) (m : gmap string string) :
  read ds = Ok (ds', m) →
  contains ds' "node_lon" = true
  ∧ contains ds' "node_lat" = true
  ∧ contains ds' "face_node_connectivity" = true
  ∧ _validate_minimum_ugrid ds' = true.
Proof.
  read_ugrid_steps.
  apply set_coords_inv in Hds6 as (Hvars & _ & Hin).
  apply standardize_fill_values_names in Hds7 as [Hnames _].
  assert (Hlon' : contains ds7 "node_lon" = true).
  { apply contains_true. rewrite Hnames, Hvars. apply contains_true, Hin. repeat constructor. }
  assert (Hlat' : contains ds7 "node_lat" = true).
  { apply contains_true. rewrite Hnames, Hvars. apply contains_true, Hin. repeat constructor. }
  destruct (getitem_second_dim _ _ _ _ Hfnc7 Hd1') as [Hv7 _].
  assert (Hfnc' : contains ds7 "face_node_connectivity" = true)
    by (apply bool_decide_eq_true; eauto).
  repeat split; try done.
  unfold _validate_minimum_ugrid. by rewrite Hlon', Hlat'.
Qed.

(** X2: in a dataset that [_read_ugrid] returns, [node_lon] and
    [node_lat] are coordinates, so they are not among its data variables. *)
Theorem read_ugrid_result_coordinates (ds ds' : Dataset) (m : gmap string string) :
  read ds = Ok (ds', m) →
  is_coord ds' "node_lon" = true
  ∧ is_coord ds' "node_lat" = true
  ∧ ("node_lon" ∉ keys ds')
  ∧ ("node_lat" ∉ keys ds').
Proof.
  read_ugrid_steps.
  apply set_coords_inv in Hds6 as (_ & Hcoords & _).
  apply standardize_fill_values_names in Hds7 as [_ Hsame].
  assert (Hc : ∀ k, k ∈ ["node_lon"; "node_lat"] → is_coord ds7 k = true).
  { intros k Hk. apply bool_decide_eq_true. rewrite Hsame, Hcoords.
    apply elem_of_union_l, elem_of_list_to_set, Hk. }
  assert (Hk : ∀ k, is_coord ds7 k = true → k ∉ keys ds7).
  { intros k Hck [[k' v] [-> Hin]]%list_elem_of_fmap.
    apply list_elem_of_filter in Hin as [Hnot _]. simpl in *. congruence. }
  repeat split; try apply Hk; apply Hc; repeat constructor.
Qed.

(** X3: in a dataset that [_read_ugrid] returns, the connectivity has a
    [_FillValue] attribute equal to the canonical fill value. *)
Theorem read_ugrid_result_fill_value (ds ds' : Dataset) (m : gmap string string) :
  read ds = Ok (ds', m) →
  ∃ v fv,
    lookup_var "face_node_connectivity" (variables ds') = Some v
    ∧ attrs v !! "_FillValue" = Some fv
    ∧ py_eq fv (PInt INT_FILL_VALUE) = true.
Proof.
  read_ugrid_steps.
  apply standardize_fill_values_inv in Hds7
    as (v & Hv & [(-> & _ & x & Hx & Heq) | (fv & new & _ & _ & _ & ->)]).
  - eauto.
  - simpl. rewrite lookup_update_var, Hv. simpl.
    eexists _, _. split; [done|]. simpl. rewrite lookup_insert_eq.
    split; [done|]. apply Z.eqb_refl.
Qed.

End ReadResult.

(** ** The dimensions of the result and the dimension map *)

Section ResultDims.
Variable INT_DTYPE : dtype.
Variable INT_FILL_VALUE : Z.
Variable _replace_fill_values : ndarray → option pyval → Z → dtype → result ndarray.

Local Abbreviation read := (_read_ugrid INT_DTYPE INT_FILL_VALUE _replace_fill_values).
Local Abbreviation standardize :=
  (_standardize_fill_values INT_DTYPE INT_FILL_VALUE _replace_fill_values).

(** Lines 40-55: the dimensions that the connectivity ends up with are
    those it had, renamed by the dictionary of lines 41-44. *)
Lemma renamed_connectivity_dims
    (ds4 ds5 ds6 ds7 : Dataset) (fnc4 fnc7 : DataArray) (d0 d1 d1' : string) :
  getitem ds4 "face_node_connectivity" = Ok fnc4 →
  list_getitem (dims (variable fnc4)) 1 = Ok d1 →
  rename (<[d1 := "n_max_face_nodes"]> {[d0 := "n_face"]}) ds4 = Ok ds5 →
  set_coords ["node_lon"; "node_lat"] ds5 = Ok ds6 →
  standardize ds6 = Ok ds7 →
  getitem ds7 "face_node_connectivity" = Ok fnc7 →
  list_getitem (dims (variable fnc7)) 1 = Ok d1' →
  lookup_var "face_node_connectivity" (variables ds7) = Some (variable fnc7)
  ∧ dims (variable fnc7)
    = map (rename_name (<[d1 := "n_max_face_nodes"]> {[d0 := "n_face"]}))
        (dims (variable fnc4)).
Proof.
  intros Hfnc4 Hd1 Hds5 Hds6 Hds7 Hfnc7 Hd1'.
  destruct (getitem_second_dim _ _ _ _ Hfnc4 Hd1) as [Hv4 Hdim4].
  destruct (getitem_second_dim _ _ _ _ Hfnc7 Hd1') as [Hv7 Hdim7].
  split; [done|].
  set (dmap := <[d1 := "n_max_face_nodes"]> {[d0 := "n_face"]} : gmap string string) in *.
  assert (Hvalues : ∀ k0 x, dmap !! k0 = Some x → x ≠ "face_node_connectivity").
  { intros k0 x. unfold dmap.
    rewrite lookup_insert_Some, lookup_singleton_Some.
    intros [[_ <-] | [_ [_ <-]]]; discriminate. }
  pose proof (standardize_fill_values_dims _ _ _ _ _ "face_node_connectivity" Hds7) as Hdims.
  rewrite (set_coords_variables _ _ _ Hds6), Hv7 in Hdims. simpl in Hdims.
  destruct (lookup_var "face_node_connectivity" (variables ds5)) as [v5|] eqn:Hv5;
    [|done].
  injection Hdims as Hdims. rewrite Hdims.
  apply lookup_var_elem_of in Hv5.
  destruct (rename_elem_back _ _ _ _ _ Hds5 Hvalues Hv5) as (v & Hin & ->).
  apply rename_shape in Hds5 as (_ & _ & Hnd).
  rewrite (lookup_var_NoDup _ _ _ Hnd Hin) in Hv4. by injection Hv4 as <-.
Qed.

(** X4: in a dataset that [_read_ugrid] returns, the dimensions of the
    connectivity are those it had after lines 19-38, renamed by the
    dictionary of lines 41-44.  With [d0] and [d1] its first two dimensions
    at that point, the second dimension of the result is [n_max_face_nodes],
    and the first is [n_face] when [d0] and [d1] differ and
    [n_max_face_nodes] when they are one name. *)
Theorem read_ugrid_result_dims (ds ds' : Dataset) (m : gmap string string) :
  read ds = Ok (ds', m) →
  ∃ ds4 v4 d0 d1 v,
    variables_renamed ds = Ok ds4
    ∧ lookup_var "face_node_connectivity" (variables ds4) = Some v4
    ∧ dims v4 !! 0 = Some d0
    ∧ dims v4 !! 1 = Some d1
    ∧ lookup_var "face_node_connectivity" (variables ds') = Some v
    ∧ dims v
      = map (rename_name (<[d1 := "n_max_face_nodes"]> {[d0 := "n_face"]})) (dims v4)
    ∧ dims v !! 1 = Some "n_max_face_nodes"
    ∧ dims v !! 0
      = Some (if decide (d0 = d1) then "n_max_face_nodes" else "n_face").
Proof.
  read_ugrid_steps.
  destruct (renamed_connectivity_dims _ _ _ _ _ _ d0 _ _
              Hfnc4 Hd1 Hds5 Hds6 Hds7 Hfnc7 Hd1') as [Hv7 Hdims].
  destruct (getitem_second_dim _ _ _ _ Hfnc4 Hd1) as [Hv4 Hdim1].
  assert (Hdim0 : dims (variable fnc4) !! 0 = Some d0).
  { unfold list_getitem in Hd0. destruct (dims (variable fnc4) !! 0); [|done].
    by injection Hd0 as ->. }
  exists ds4, (variable fnc4), d0, d1, (variable fnc7).
  split.
  { unfold variables_renamed. rewrite Hbase. simpl. rewrite Hds1. simpl.
    rewrite Hmesh2. simpl. rewrite Hnc. simpl. rewrite Hcns. simpl.
    rewrite Hds2. simpl. rewrite Hlon. simpl. rewrite Hd. simpl.
    rewrite Hds3. simpl. rewrite Hmesh2'. simpl. rewrite Hfattr. simpl.
    rewrite Hfns. simpl. rewrite Hfname. simpl. rewrite Hfda. simpl.
    exact Hds4. }
  repeat (split; [done|]).
  rewrite Hdims, !list_lookup_fmap, Hdim0, Hdim1. simpl. unfold rename_name.
  split.
  - by rewrite lookup_insert_eq.
  - destruct (decide (d0 = d1)) as [->|Hne].
    + by rewrite lookup_insert_eq.
    + by rewrite lookup_insert_ne, lookup_singleton_eq.
Qed.

(** X5: every entry of the dimension map that [_read_ugrid] returns
    is [n_max_face_nodes] to itself, [n_face] to itself, or some name to
    [n_node]: no entry leads from a source name to [n_face] or
    [n_max_face_nodes]. *)
Theorem read_ugrid_source_dims_entries
    (ds ds' : Dataset) (m : gmap string string) (k v : string) :
  read ds = Ok (ds', m) →
  m !! k = Some v →
  (k = "n_max_face_nodes" ∧ v = "n_max_face_nodes")
  ∨ (k = "n_face" ∧ v = "n_face")
  ∨ v = "n_node".
Proof.
  read_ugrid_steps.
  destruct (renamed_connectivity_dims _ _ _ _ _ _ d0 _ _
              Hfnc4 Hd1 Hds5 Hds6 Hds7 Hfnc7 Hd1') as [_ Hdims].
  unfold list_getitem in Hd0, Hd1, Hd0', Hd1'.
  rewrite Hdims, !list_lookup_fmap in *.
  destruct (dims (variable fnc4) !! 0) as [x0|]; [|done]. injection Hd0 as ->.
  destruct (dims (variable fnc4) !! 1) as [x1|]; [|done]. injection Hd1 as ->.
  simpl in Hd0', Hd1'. injection Hd0' as <-. injection Hd1' as <-.
  unfold rename_name. rewrite lookup_insert_eq. simpl.
  rewrite !lookup_insert_Some, lookup_empty.
  intros [[<- <-] | [Hk1 [[<- <-] | [Hk0 [[_ <-] | [_ [=]]]]]]]; [by left | | by right; right].
  right. left. split; [|done].
  destruct (decide (d1 = d0)) as [->|Hne].
  - by rewrite lookup_insert_eq in Hk1.
  - by rewrite lookup_insert_ne, lookup_singleton_eq.
Qed.

End ResultDims.

(** ** How normalization fails *)

Lemma list_getitem_elem_of {A} (l : list A) (i : nat) (x : A) :
  list_getitem l i = Ok x → x ∈ l.
Proof.
  unfold list_getitem. destruct (l !! i) eqn:Hl; [|done].
  intros [= <-]. by eapply list_elem_of_lookup_2.
Qed.

(** The topology variable that is found is a data variable of the
    dataset with the [cf_role] looked for. *)
Lemma located_topology (ds : Dataset) (base : string) :
  list_getitem
    (keys (filter_by_attrs [("cf_role", Literal (PStr "mesh_topology"))] ds)) 0
  = Ok base →
  ∃ v, (base, v) ∈ data_vars ds ∧ attr_is "cf_role" "mesh_topology" v.
Proof.
  intros Hin%list_getitem_elem_of. rewrite keys_filter_by_attrs in Hin.
  apply list_elem_of_fmap in Hin as ([k v] & -> & Hin).
  apply list_elem_of_filter in Hin as [Hm Hin]. simpl in *.
  exists v. split; [done|]. by apply matches_literal_str.
Qed.

Lemma NoDup_fmap_eq {A B} (f : A → B) (l : list A) (x y : A) :
  NoDup (f <$> l) → x ∈ l → y ∈ l → f x = f y → x = y.
Proof.
  intros Hnd [i Hi]%list_elem_of_lookup [j Hj]%list_elem_of_lookup Heq.
  assert (Hfi : (f <$> l) !! i = Some (f x)) by (by rewrite list_lookup_fmap, Hi).
  assert (Hfj : (f <$> l) !! j = Some (f x)) by (by rewrite list_lookup_fmap, Hj, Heq).
  pose proof (NoDup_lookup _ _ _ _ Hnd Hfi Hfj) as ->. congruence.
Qed.

Lemma rename_names (d : gmap string string) (ds ds' : Dataset) :
  rename d ds = Ok ds' → (variables ds').*1 = rename_name d <$> (variables ds).*1.
Proof.
  intros [-> _]%rename_shape.
  induction (variables ds) as [|[k v] l IH]; [done|]. simpl. f_equal. apply IH.
Qed.

Section ReadErrors.
Variable INT_DTYPE : dtype.
Variable INT_FILL_VALUE : Z.
Variable _replace_fill_values : ndarray → option pyval → Z → dtype → result ndarray.

Local Abbreviation read := (_read_ugrid INT_DTYPE INT_FILL_VALUE _replace_fill_values).
Local Abbreviation standardize :=
  (_standardize_fill_values INT_DTYPE INT_FILL_VALUE _replace_fill_values).

(** X6: a dataset with a variable [Mesh2] that is not its topology
    variable is not normalized: renaming the topology variable to [Mesh2]
    raises [ValueError]. *)
Theorem read_ugrid_mesh2_taken (ds : Dataset) (base : string) :
  list_getitem
    (keys (filter_by_attrs [("cf_role", Literal (PStr "mesh_topology"))] ds)) 0
  = Ok base →
  base ≠ "Mesh2" →
  contains ds "Mesh2" = true →
  read ds = Raise ValueError.
Proof.
  intros Hbase Hne Htaken. unfold _read_ugrid. rewrite Hbase. simpl.
  destruct (rename {[base := "Mesh2"]} ds) as [ds1|e] eqn:Hren; simpl.
  - exfalso.
    apply located_topology in Hbase as (v & Hin & _).
    apply list_elem_of_filter in Hin as [_ Hin].
    apply (list_elem_of_fmap_2 fst) in Hin. simpl in Hin.
    apply contains_true in Htaken.
    pose proof (rename_shape _ _ _ Hren) as (_ & Hnd & _).
    rewrite (rename_names _ _ _ Hren) in Hnd.
    apply Hne, (NoDup_fmap_eq (rename_name {[base := "Mesh2"]}) _ _ _ Hnd Hin Htaken).
    unfold rename_name. rewrite lookup_singleton_eq.
    by rewrite lookup_singleton_ne.
  - by rewrite (rename_raises _ _ _ Hren).
Qed.


End ReadErrors.

(** ** What normalization needs and what it keeps *)

Lemma rename_coords_elem_back (cns : list string) (ds ds' : Dataset)
    (k : string) (v' : Var) :
  rename_coords cns ds = Ok ds' →
  k ≠ "node_lon" → k ≠ "node_lat" →
  (k, v') ∈ variables ds' →
  ∃ v, (k, v) ∈ variables ds ∧ attrs v' = attrs v.
Proof.
  unfold rename_coords. intros Hren Hlon Hlat Hin.
  destruct (length cns =? 1)%nat.
  { destruct (list_getitem cns 0) as [c0|]; simpl in Hren; [|done].
    destruct (rename_elem_back _ _ _ k v' Hren) as (v & ? & ->); [|done|eauto].
    intros k0 x [_ <-]%lookup_singleton_Some. done. }
  destruct (length cns =? 2)%nat.
  { destruct (list_getitem cns 0) as [c0|]; simpl in Hren; [|done].
    destruct (list_getitem cns 1) as [c1|]; simpl in Hren; [|done].
    destruct (rename_elem_back _ _ _ k v' Hren) as (v & ? & ->); [|done|eauto].
    intros k0 x. rewrite lookup_insert_Some, lookup_singleton_Some.
    intros [[_ <-] | [_ [_ <-]]]; done. }
  injection Hren as <-. eauto.
Qed.

Lemma Forall2_compose {A} (R S T : A → A → Prop) (l k j : list A) :
  (∀ x y z, R x y → S y z → T x z) →
  Forall2 R l k → Forall2 S k j → Forall2 T l j.
Proof.
  intros Hcomp HR. revert j.
  induction HR as [|x y l k Hxy HR IH]; intros j HS; inversion HS; subst;
    constructor; eauto.
Qed.

Lemma rename_payload (d : gmap string string) (ds ds' : Dataset) :
  rename d ds = Ok ds' →
  Forall2 (λ kv kv', same_payload kv.2 kv'.2) (variables ds) (variables ds').
Proof.
  intros [-> _]%rename_shape.
  induction (variables ds) as [|[k v] l IH]; simpl; constructor; [done | apply IH].
Qed.

Lemma rename_coords_payload (cns : list string) (ds ds' : Dataset) :
  rename_coords cns ds = Ok ds' →
  Forall2 (λ kv kv', same_payload kv.2 kv'.2) (variables ds) (variables ds').
Proof.
  unfold rename_coords.
  destruct (length cns =? 1)%nat.
  { destruct (list_getitem cns 0); simpl; [apply rename_payload | done]. }
  destruct (length cns =? 2)%nat.
  { destruct (list_getitem cns 0); simpl; [|done].
    destruct (list_getitem cns 1); simpl; [apply rename_payload | done]. }
  intros [= <-]. by apply Forall_Forall2_diag, Forall_forall.
Qed.

(** The four markers that [_is_ugrid] looks for. *)
Lemma is_ugrid_markers (ds : Dataset) :
  _is_ugrid ds = true ↔
    some_data_var ds (attr_is "cf_role" "mesh_topology")
    ∧ some_data_var ds (has_attr "topology_dimension")
    ∧ some_data_var ds (has_attr "face_node_connectivity")
    ∧ some_data_var ds (has_attr "node_coordinates").
Proof.
  unfold _is_ugrid.
  rewrite <- (some_data_var_iff ds _ _ (matches_literal_str "cf_role" "mesh_topology")).
  rewrite <- (some_data_var_iff ds _ _ (matches_not_None "topology_dimension")).
  rewrite <- (some_data_var_iff ds _ _ (matches_not_None "face_node_connectivity")).
  rewrite <- (some_data_var_iff ds _ _ (matches_not_None "node_coordinates")).
  rewrite <- !len_filter_by_attrs.
  destruct (len (filter_by_attrs [("cf_role", _)] ds) =? 0)%nat,
           (len (filter_by_attrs [("topology_dimension", _)] ds) =? 0)%nat,
           (len (filter_by_attrs [("face_node_connectivity", _)] ds) =? 0)%nat,
           (len (filter_by_attrs [("node_coordinates", _)] ds) =? 0)%nat;
    simpl; intuition congruence.
Qed.

(** The topology variable that is found is the first data variable with
    the [cf_role] looked for. *)
Lemma located_first (ds : Dataset) (base : string) :
  list_getitem
    (keys (filter_by_attrs [("cf_role", Literal (PStr "mesh_topology"))] ds)) 0
  = Ok base →
  ∃ before v after,
    data_vars ds = (before ++ (base, v) :: after)%list
    ∧ Forall (λ kv, ¬ attr_is "cf_role" "mesh_topology" kv.2) before
    ∧ attr_is "cf_role" "mesh_topology" v.
Proof.
  rewrite keys_filter_by_attrs. unfold list_getitem.
  induction (data_vars ds) as [|[k v] l IH]; [done|].
  destruct (var_matches [("cf_role", Literal (PStr "mesh_topology"))] v) eqn:Hm.
  - rewrite filter_cons_True by done. intros [= ->].
    exists [], v, l. split; [done|]. split; [constructor|].
    by apply matches_literal_str.
  - rewrite filter_cons_False
      by (change (var_matches [("cf_role", Literal (PStr "mesh_topology"))] v ≠ true);
          congruence).
    intros (before & v' & after & -> & Hbefore & Hrole)%IH.
    exists ((k, v) :: before), v', after. split; [done|]. split; [|done].
    constructor; [|done]. simpl. rewrite <- matches_literal_str. congruence.
Qed.

Section ReadNeeds.
Variable INT_DTYPE : dtype.
Variable INT_FILL_VALUE : Z.
Variable _replace_fill_values : ndarray → option pyval → Z → dtype → result ndarray.

Local Abbreviation read := (_read_ugrid INT_DTYPE INT_FILL_VALUE _replace_fill_values).
Local Abbreviation standardize :=
  (_standardize_fill_values INT_DTYPE INT_FILL_VALUE _replace_fill_values).

(** What a successful [_read_ugrid] has read off the first data variable
    that has the [cf_role] looked for. *)
Lemma read_ugrid_topology (ds ds' : Dataset) (m : gmap string string) :
  read ds = Ok (ds', m) →
  ∃ before base v after nc fc,
    data_vars ds = (before ++ (base, v) :: after)%list
    ∧ Forall (λ kv, ¬ attr_is "cf_role" "mesh_topology" kv.2) before
    ∧ attr_is "cf_role" "mesh_topology" v
    ∧ attr_is "node_coordinates" nc v
    ∧ attr_is "face_node_connectivity" fc v
    ∧ split fc ≠ [].
Proof.
  read_ugrid_steps.
  destruct (located_first _ _ Hbase) as (before & v & after & Hsplit & Hbefore & Hrole).
  assert (Hin : (base, v) ∈ data_vars ds)
    by (rewrite Hsplit; apply elem_of_app; right; left).
  pose proof Hin as [_ Hin']%list_elem_of_filter.
  pose proof (rename_lookup_forward _ _ _ _ _ Hds1 Hin') as Hm.
  unfold rename_name in Hm. rewrite lookup_singleton_eq in Hm. simpl in Hm.
  unfold getitem in Hmesh2. rewrite Hm in Hmesh2. injection Hmesh2 as <-.
  unfold da_getattr in Hnc. simpl in Hnc.
  destruct (attrs v !! "node_coordinates") as [x|] eqn:Hx; [|done].
  injection Hnc as ->. destruct nc as [s| |]; [|done..].
  unfold getitem in Hmesh2'.
  destruct (lookup_var "Mesh2" (variables ds3)) as [v3|] eqn:Hv3;
    [|destruct (is_dim ds3 "Mesh2"); [|done]; by injection Hmesh2' as <-].
  injection Hmesh2' as <-.
  apply lookup_var_elem_of in Hv3.
  destruct (rename_elem_back _ _ _ "Mesh2" v3 Hds3) as (v2 & Hv2 & ->); [|done|].
  { by intros k0 x [_ <-]%lookup_singleton_Some. }
  destruct (rename_coords_elem_back _ _ _ "Mesh2" v2 Hds2)
    as (v1 & Hv1 & Hattrs); [done..|].
  pose proof (rename_shape _ _ _ Hds1) as (_ & Hnd & _).
  rewrite (lookup_var_NoDup _ _ _ Hnd Hv1) in Hm. injection Hm as ->.
  unfold da_getattr in Hfattr. simpl in Hfattr. rewrite Hattrs in Hfattr. simpl in Hfattr.
  destruct (attrs v !! "face_node_connectivity") as [y|] eqn:Hy; [|done].
  injection Hfattr as ->. destruct fattr as [fc| |]; [|done..].
  injection Hfns as <-.
  exists before, base, v, after, s, fc. repeat split; try done.
  intros Hnil. rewrite Hnil in Hfname. done.
Qed.

(** X8: when [_read_ugrid] succeeds, the first data variable with
    [cf_role] equal to ["mesh_topology"] has [node_coordinates] and
    [face_node_connectivity] attributes that are strings, the second one
    naming at least one variable. *)
Theorem read_ugrid_needs_references (ds ds' : Dataset) (m : gmap string string) :
  read ds = Ok (ds', m) →
  ∃ before base v after nc fc,
    data_vars ds = (before ++ (base, v) :: after)%list
    ∧ Forall (λ kv, ¬ attr_is "cf_role" "mesh_topology" kv.2) before
    ∧ attr_is "cf_role" "mesh_topology" v
    ∧ attr_is "node_coordinates" nc v
    ∧ attr_is "face_node_connectivity" fc v
    ∧ split fc ≠ [].
Proof. apply read_ugrid_topology. Qed.

(** X9: a dataset that [_read_ugrid] normalizes passes [_is_ugrid]
    exactly when one of its data variables has a [topology_dimension]
    attribute, the one marker that [_read_ugrid] does not read. *)
Theorem read_ugrid_is_ugrid (ds ds' : Dataset) (m : gmap string string) :
  read ds = Ok (ds', m) →
  (_is_ugrid ds = true ↔ some_data_var ds (has_attr "topology_dimension")).
Proof.
  intros (before & base & v & after & nc & fc & Hsplit & _ & Hrole & Hnc & Hfc & _)%read_ugrid_topology.
  assert (Hin : (base, v) ∈ data_vars ds)
    by (rewrite Hsplit; apply elem_of_app; right; left).
  rewrite is_ugrid_markers. split; [tauto|]. intros Htopo.
  repeat split; try done; exists base, v; (split; [done|]);
    unfold has_attr, attr_is in *; eauto.
Qed.

(** X10: [_read_ugrid] keeps the number and the order of the variables,
    and the attributes and the data of every variable but the one it
    returns as [face_node_connectivity]. *)
Theorem read_ugrid_keeps_payload (ds ds' : Dataset) (m : gmap string string) :
  read ds = Ok (ds', m) →
  Forall2
    (λ kv kv', kv'.1 = "face_node_connectivity" ∨ same_payload kv.2 kv'.2)
    (variables ds) (variables ds').
Proof.
  read_ugrid_steps.
  assert (Htrans : ∀ x y z : string * Var,
            same_payload x.2 y.2 → same_payload y.2 z.2 → same_payload x.2 z.2).
  { intros x y z [? ?] [? ?]. split; congruence. }
  assert (H5 : Forall2 (λ kv kv', same_payload kv.2 kv'.2) (variables ds) (variables ds5)).
  { eapply Forall2_compose; [exact Htrans | | apply (rename_payload _ _ _ Hds5)].
    eapply Forall2_compose; [exact Htrans | | apply (rename_payload _ _ _ Hds4)].
    eapply Forall2_compose; [exact Htrans | | apply (rename_payload _ _ _ Hds3)].
    eapply Forall2_compose; [exact Htrans | | apply (rename_coords_payload _ _ _ Hds2)].
    apply (rename_payload _ _ _ Hds1). }
  rewrite <- (set_coords_variables _ _ _ Hds6) in H5.
  eapply (Forall2_compose _
            (λ kv kv', kv'.1 = "face_node_connectivity" ∨ same_payload kv.2 kv'.2));
    [| exact H5 |].
  2:{ apply standardize_fill_values_inv in Hds7
        as (v & Hv & [(-> & _) | (fv & new & _ & _ & _ & ->)]).
      - apply Forall_Forall2_diag, Forall_forall.
        intros kv _. right. by split.
      - simpl. apply (update_var_Forall2
                  (λ kv kv', kv'.1 = "face_node_connectivity" ∨ same_payload kv.2 kv'.2)).
        + intros kv. right. by split.
        + intros v0. by left. }
  intros x y z Hxy [Hz | Hyz]; [by left | right; by apply (Htrans x y z)].
Qed.

End ReadNeeds.

(** ** Standardization and the two validators *)

Lemma rename_vars_succeeds (d : gmap string string) (vs : list (string * Var)) :
  ∀ acc, NoDup (acc.*1 ++ (rename_name d <$> vs.*1)) →
  ∃ res, rename_vars d vs acc = Ok res.
Proof.
  induction vs as [|[k v] vs IH]; intros acc Hnd; simpl; [eauto|].
  simpl in Hnd.
  destruct (lookup_var (rename_name d k) acc) eqn:Hk.
  - exfalso. assert (Hin : rename_name d k ∈ acc.*1)
      by (apply lookup_var_is_Some; eauto).
    apply NoDup_app in Hnd as (_ & Hdisj & _).
    apply (Hdisj _ Hin). left.
  - apply IH. rewrite fmap_app, <- app_assoc. done.
Qed.

Lemma rename_succeeds (d : gmap string string) (ds : Dataset) :
  (∀ k, is_Some (d !! k) → contains ds k = true ∨ is_dim ds k = true) →
  NoDup (rename_name d <$> (variables ds).*1) →
  ∃ ds', rename d ds = Ok ds'.
Proof.
  intros Hkeys Hnd. unfold rename.
  assert (Hall : forallb (λ k, contains ds k || is_dim ds k) (map_to_list d).*1 = true).
  { apply forallb_forall. intros k Hk%list_elem_of_In.
    apply list_elem_of_fmap in Hk as ([k' x] & -> & Hk%elem_of_map_to_list).
    apply orb_true_iff, Hkeys. eauto. }
  rewrite Hall.
  destruct (rename_vars_succeeds d (variables ds) []) as [res ->]; [done|].
  simpl. eauto.
Qed.

Section Validators.
Variable INT_DTYPE : dtype.
Variable INT_FILL_VALUE : Z.
Variable _replace_fill_values : ndarray → option pyval → Z → dtype → result ndarray.

Local Abbreviation read := (_read_ugrid INT_DTYPE INT_FILL_VALUE _replace_fill_values).
Local Abbreviation standardize :=
  (_standardize_fill_values INT_DTYPE INT_FILL_VALUE _replace_fill_values).

Lemma standardize_fill_values_markers (ds ds' : Dataset) (P : Var → Prop) :
  standardize ds = Ok ds' →
  (∀ v v', (∀ a, a ≠ "_FillValue" → attrs v' !! a = attrs v !! a) → P v ↔ P v') →
  some_data_var ds P ↔ some_data_var ds' P.
Proof.
  intros [Hcoords Hrel]%(standardize_fill_values_related INT_DTYPE INT_FILL_VALUE _replace_fill_values) HP.
  unfold some_data_var, data_vars, is_coord. rewrite Hcoords. split.
  - intros (k & v & [Hc [i Hi]%list_elem_of_lookup]%list_elem_of_filter & Hv).
    destruct (Forall2_lookup_l _ _ _ _ _ Hrel Hi) as ([k' v'] & Hi' & Hk & _ & Hattrs & _).
    simpl in *. subst k'. exists k, v'. split; [|by apply (HP v v')].
    apply list_elem_of_filter. split; [done|]. by eapply list_elem_of_lookup_2.
  - intros (k & v' & [Hc [i Hi]%list_elem_of_lookup]%list_elem_of_filter & Hv).
    destruct (Forall2_lookup_r _ _ _ _ _ Hrel Hi) as ([k' v] & Hi' & Hk & _ & Hattrs & _).
    simpl in *. subst k'. exists k, v. split; [|by apply (HP v v')].
    apply list_elem_of_filter. split; [done|]. by eapply list_elem_of_lookup_2.
Qed.

(** X14: [_standardize_fill_values] changes the verdict of neither
    validator. *)
Theorem standardize_fill_values_validators (ds ds' : Dataset) :
  standardize ds = Ok ds' →
  _validate_minimum_ugrid ds' = _validate_minimum_ugrid ds
  ∧ _is_ugrid ds' = _is_ugrid ds.
Proof.
  intros Hrun. split.
  - pose proof (standardize_fill_values_names _ _ _ _ _ Hrun) as [Hnames _].
    assert (Hc : ∀ k, contains ds' k = contains ds k).
    { intros k. apply eq_true_iff_eq. by rewrite !contains_true, Hnames. }
    unfold _validate_minimum_ugrid. by rewrite !Hc.
  - apply eq_true_iff_eq. rewrite !is_ugrid_markers.
    rewrite <- !(standardize_fill_values_markers ds ds' _ Hrun); [done|..];
      intros v v' Hattrs; unfold has_attr, attr_is; by rewrite Hattrs.
Qed.

(** X15: a dataset without a variable [face_node_connectivity] is not
    standardized; the error is [KeyError] when there is no dimension of
    that name either. *)
Theorem standardize_fill_values_needs_variable (ds : Dataset) :
  contains ds "face_node_connectivity" = false →
  ∃ e, standardize ds = Raise e
       ∧ (is_dim ds "face_node_connectivity" = false → e = KeyError).
Proof.
  intros Hno. apply bool_decide_eq_false in Hno.
  destruct (standardize ds) as [ds'|e] eqn:Hrun.
  - apply standardize_fill_values_inv in Hrun as (v & Hv & _).
    destruct Hno. eauto.
  - exists e. split; [done|]. intros Hdim.
    unfold _standardize_fill_values, getitem in Hrun. rewrite Hdim in Hrun.
    destruct (lookup_var _ _); [destruct Hno; eauto|].
    simpl in Hrun. by injection Hrun as <-.
Qed.

(** X16: in a dataset with distinct variable names and no other
    variable called [Mesh2], a topology variable without a string-valued
    [node_coordinates] attribute makes [_read_ugrid] raise
    [AttributeError]. *)
Theorem read_ugrid_missing_node_coordinates (ds : Dataset) (base : string) (v : Var) :
  NoDup (variables ds).*1 →
  list_getitem
    (keys (filter_by_attrs [("cf_role", Literal (PStr "mesh_topology"))] ds)) 0
  = Ok base →
  lookup_var base (variables ds) = Some v →
  base = "Mesh2" ∨ contains ds "Mesh2" = false →
  (∀ s, attrs v !! "node_coordinates" ≠ Some (PStr s)) →
  read ds = Raise AttributeError.
Proof.
  intros Hnd Hbase Hv Hfree Hattr.
  destruct (rename_succeeds {[base := "Mesh2"]} ds) as [ds1 Hds1].
  { intros k [x [-> _]%lookup_singleton_Some]. left.
    apply bool_decide_eq_true. eauto. }
  { apply NoDup_fmap_2_strong; [|done].
    intros x y Hx Hy. unfold rename_name.
    destruct (decide (x = base)) as [->|Hxb], (decide (y = base)) as [->|Hyb];
      rewrite ?lookup_singleton_eq, ?lookup_singleton_ne by done; simpl;
      [done | intros <- | intros -> | done];
      (destruct Hfree as [->|Hfree]; [done|]);
      apply contains_true in Hx; apply contains_true in Hy; congruence. }
  unfold _read_ugrid. rewrite Hbase. simpl. rewrite Hds1. simpl.
  pose proof (rename_lookup_forward _ _ _ _ _ Hds1 (lookup_var_elem_of _ _ _ Hv)) as Hm.
  unfold rename_name in Hm. rewrite lookup_singleton_eq in Hm. simpl in Hm.
  unfold getitem. rewrite Hm. simpl. unfold da_getattr. simpl.
  destruct (attrs v !! "node_coordinates") as [[s| |]|] eqn:Hx; simpl; try done.
  by destruct (Hattr s).
Qed.

End Validators.

(** ** The properties above, on the samples *)

Lemma read_scenario :
  _read_ugrid Defaults.INT_DTYPE Defaults.INT_FILL_VALUE
    Defaults._replace_fill_values Samples.scenario
  = Ok (Samples.scenario_normalized, Samples.scenario_dims).
Proof. vm_compute. reflexivity. Qed.

Lemma read_ugrid_result_validates_witness :
  contains Samples.scenario_normalized "node_lon" = true
  ∧ contains Samples.scenario_normalized "node_lat" = true
  ∧ contains Samples.scenario_normalized "face_node_connectivity" = true
  ∧ _validate_minimum_ugrid Samples.scenario_normalized = true.
Proof.
  apply (read_ugrid_result_validates Defaults.INT_DTYPE Defaults.INT_FILL_VALUE
           Defaults._replace_fill_values Samples.scenario _ Samples.scenario_dims).
  vm_compute. reflexivity.
Defined.

Lemma read_ugrid_result_coordinates_witness :
  is_coord Samples.scenario_normalized "node_lon" = true
  ∧ is_coord Samples.scenario_normalized "node_lat" = true
  ∧ ("node_lon" ∉ keys Samples.scenario_normalized)
  ∧ ("node_lat" ∉ keys Samples.scenario_normalized).
Proof.
  apply (read_ugrid_result_coordinates Defaults.INT_DTYPE Defaults.INT_FILL_VALUE
           Defaults._replace_fill_values Samples.scenario _ Samples.scenario_dims).
  vm_compute. reflexivity.
Defined.

Lemma read_ugrid_result_fill_value_witness :
  ∃ v fv,
    lookup_var "face_node_connectivity" (variables Samples.scenario_normalized) = Some v
    ∧ attrs v !! "_FillValue" = Some fv
    ∧ py_eq fv (PInt Defaults.INT_FILL_VALUE) = true.
Proof.
  apply (read_ugrid_result_fill_value Defaults.INT_DTYPE Defaults.INT_FILL_VALUE
           Defaults._replace_fill_values Samples.scenario _ Samples.scenario_dims).
  vm_compute. reflexivity.
Defined.

Lemma read_ugrid_result_dims_witness :
  ∃ ds4 v4 d0 d1 v,
    variables_renamed Samples.scenario = Ok ds4
    ∧ lookup_var "face_node_connectivity" (variables ds4) = Some v4
    ∧ dims v4 !! 0 = Some d0
    ∧ dims v4 !! 1 = Some d1
    ∧ lookup_var "face_node_connectivity" (variables Samples.scenario_normalized)
      = Some v
    ∧ dims v
      = map (rename_name (<[d1 := "n_max_face_nodes"]> {[d0 := "n_face"]})) (dims v4)
    ∧ dims v !! 1 = Some "n_max_face_nodes"
    ∧ dims v !! 0
      = Some (if decide (d0 = d1) then "n_max_face_nodes" else "n_face").
Proof.
  apply (read_ugrid_result_dims Defaults.INT_DTYPE Defaults.INT_FILL_VALUE
           Defaults._replace_fill_values Samples.scenario _ Samples.scenario_dims).
  vm_compute. reflexivity.
Defined.

(** With one name for both dimensions, both become
    [n_max_face_nodes]. *)
Lemma read_ugrid_one_dimension_name :
  ∃ ds m v,
    _read_ugrid Defaults.INT_DTYPE Defaults.INT_FILL_VALUE
      Defaults._replace_fill_values Samples.one_dimension_name = Ok (ds, m)
    ∧ lookup_var "face_node_connectivity" (variables ds) = Some v
    ∧ dims v = ["n_max_face_nodes"; "n_max_face_nodes"].
Proof. eexists _, _, _. repeat split; vm_compute; reflexivity. Qed.

Lemma read_ugrid_source_dims_entries_witness :
  ("n_face" = "n_max_face_nodes" ∧ "n_face" = "n_max_face_nodes")
  ∨ ("n_face" = "n_face" ∧ "n_face" = "n_face")
  ∨ "n_face" = "n_node".
Proof.
  apply (read_ugrid_source_dims_entries Defaults.INT_DTYPE Defaults.INT_FILL_VALUE
           Defaults._replace_fill_values Samples.scenario
           Samples.scenario_normalized Samples.scenario_dims "n_face" "n_face").
  - vm_compute. reflexivity.
  - vm_compute. reflexivity.
Defined.

Lemma read_ugrid_mesh2_taken_witness :
  _read_ugrid Defaults.INT_DTYPE Defaults.INT_FILL_VALUE
    Defaults._replace_fill_values Samples.mesh2_taken = Raise ValueError.
Proof.
  apply (read_ugrid_mesh2_taken _ _ _ Samples.mesh2_taken "Mesh2d").
  - vm_compute. reflexivity.
  - discriminate.
  - vm_compute. reflexivity.
Defined.

Lemma read_ugrid_needs_references_witness :
  ∃ before base v after nc fc,
    data_vars Samples.scenario = (before ++ (base, v) :: after)%list
    ∧ Forall (λ kv, ¬ attr_is "cf_role" "mesh_topology" kv.2) before
    ∧ attr_is "cf_role" "mesh_topology" v
    ∧ attr_is "node_coordinates" nc v
    ∧ attr_is "face_node_connectivity" fc v
    ∧ split fc ≠ [].
Proof.
  apply (read_ugrid_needs_references Defaults.INT_DTYPE Defaults.INT_FILL_VALUE
           Defaults._replace_fill_values Samples.scenario
           Samples.scenario_normalized Samples.scenario_dims).
  vm_compute. reflexivity.
Defined.

Lemma read_ugrid_is_ugrid_witness :
  _is_ugrid Samples.scenario = true
  ↔ some_data_var Samples.scenario (has_attr "topology_dimension").
Proof.
  apply (read_ugrid_is_ugrid Defaults.INT_DTYPE Defaults.INT_FILL_VALUE
           Defaults._replace_fill_values Samples.scenario
           Samples.scenario_normalized Samples.scenario_dims).
  vm_compute. reflexivity.
Defined.

Lemma read_ugrid_keeps_payload_witness :
  Forall2
    (λ kv kv', kv'.1 = "face_node_connectivity" ∨ same_payload kv.2 kv'.2)
    (variables Samples.scenario) (variables Samples.scenario_normalized).
Proof.
  apply (read_ugrid_keeps_payload Defaults.INT_DTYPE Defaults.INT_FILL_VALUE
           Defaults._replace_fill_values Samples.scenario _ Samples.scenario_dims).
  vm_compute. reflexivity.
Defined.

Lemma standardize_fill_values_frame_witness :
  coord_names Samples.nan_padded_standardized = coord_names Samples.nan_padded
  ∧ Forall2
      (λ kv kv',
         kv'.1 = kv.1
         ∧ dims kv'.2 = dims kv.2
         ∧ (∀ a, a ≠ "_FillValue" → attrs kv'.2 !! a = attrs kv.2 !! a)
         ∧ (kv.1 ≠ "face_node_connectivity" → kv'.2 = kv.2))
      (variables Samples.nan_padded) (variables Samples.nan_padded_standardized).
Proof.
  apply (standardize_fill_values_frame Defaults.INT_DTYPE Defaults.INT_FILL_VALUE
           Defaults._replace_fill_values).
  vm_compute. reflexivity.
Defined.

Lemma standardize_fill_values_idempotent_witness :
  _standardize_fill_values Defaults.INT_DTYPE Defaults.INT_FILL_VALUE
    Defaults._replace_fill_values Samples.nan_padded_standardized
  = Ok Samples.nan_padded_standardized.
Proof.
  apply (standardize_fill_values_idempotent _ _ _ Samples.nan_padded
           Samples.nan_padded_standardized
           (mkDataArray "face_node_connectivity"
              (Samples.var ["n_face"; "n_max_face_nodes"]
                 [("_FillValue", PInt Defaults.INT_FILL_VALUE)]
                 (IntArray 64 [1%N; 4%N] [0; 1; 2; Defaults.INT_FILL_VALUE]%Z)))).
  - vm_compute. reflexivity.
  - vm_compute. reflexivity.
  - vm_compute. reflexivity.
Defined.


Lemma standardize_fill_values_validators_witness :
  _validate_minimum_ugrid Samples.nan_padded_standardized
  = _validate_minimum_ugrid Samples.nan_padded
  ∧ _is_ugrid Samples.nan_padded_standardized = _is_ugrid Samples.nan_padded.
Proof.
  apply (standardize_fill_values_validators Defaults.INT_DTYPE Defaults.INT_FILL_VALUE
           Defaults._replace_fill_values).
  vm_compute. reflexivity.
Defined.

Lemma standardize_fill_values_needs_variable_witness :
  ∃ e, _standardize_fill_values Defaults.INT_DTYPE Defaults.INT_FILL_VALUE
         Defaults._replace_fill_values Samples.lonlat_only = Raise e
       ∧ (is_dim Samples.lonlat_only "face_node_connectivity" = false → e = KeyError).
Proof.
  apply standardize_fill_values_needs_variable.
  vm_compute. reflexivity.
Defined.

Lemma read_ugrid_missing_node_coordinates_witness :
  _read_ugrid Defaults.INT_DTYPE Defaults.INT_FILL_VALUE
    Defaults._replace_fill_values Samples.no_node_coordinates = Raise AttributeError.
Proof.
  apply (read_ugrid_missing_node_coordinates _ _ _ Samples.no_node_coordinates "Mesh2d"
           (Samples.var [] [("cf_role", PStr "mesh_topology");
                            ("face_node_connectivity", PStr "fnc")]
              (IntArray 32 [] [0%Z]))).
  - apply (bool_decide_unpack (NoDup _)). vm_compute. exact I.
  - vm_compute. reflexivity.
  - vm_compute. reflexivity.
  - right. vm_compute. reflexivity.
  - intros s. vm_compute. discriminate.
Defined.
